(** * ExpandScreen virtual display driver: descriptor encoder, mode catalog,
    monitor bookkeeping and frame step, embedded from the driver sources.

  Integers are modelled as [Z] with the wrap-around of their C type written
  out ([to_UINT], [to_BYTE], [to_LONG]).  Buffers are lists indexed from 0;
  every store of the sources is in range for the buffers they are given. *)

From Stdlib Require Import ZArith Lia.
From stdpp Require Import base numbers list strings sorting.

Local Open Scope Z_scope.

(** ** Platform types and macros (ntdef.h, ntstatus.h, wdm.h) *)
Module Win.

(** [UINT]: 32-bit unsigned. *)
Definition to_UINT (z : Z) : Z := z mod 2 ^ 32.

(** [UINT64]: 64-bit unsigned. *)
Definition to_UINT64 (z : Z) : Z := z mod 2 ^ 64.

(** [BYTE]: 8-bit unsigned; [(BYTE)x] keeps the low eight bits. *)
Definition to_BYTE (z : Z) : Z := z mod 2 ^ 8.

(** [LONG]: 32-bit two's complement. *)
Definition to_LONG (z : Z) : Z := (z + 2 ^ 31) mod 2 ^ 32 - 2 ^ 31.

(** [NTSTATUS] is a [LONG]; the values below are those of ntstatus.h. *)
Definition NTSTATUS := Z.
Definition STATUS_SUCCESS : NTSTATUS := 0.
Definition STATUS_PENDING : NTSTATUS := 0x103.
Definition STATUS_NOT_IMPLEMENTED : NTSTATUS := to_LONG 0xC0000002.
Definition STATUS_INVALID_PARAMETER : NTSTATUS := to_LONG 0xC000000D.
Definition STATUS_INVALID_DEVICE_REQUEST : NTSTATUS := to_LONG 0xC0000010.

(** [#define NT_SUCCESS(Status) (((NTSTATUS)(Status)) >= 0)] *)
Definition NT_SUCCESS (status : NTSTATUS) : bool := 0 <=? status.

(** [InterlockedIncrement(&v)]: the new value of the [LONG], which is also
    what the call returns. *)
Definition InterlockedIncrement (v : Z) : Z := to_LONG (v + 1).

(** [buf[i]], for an index inside the buffer. *)
Definition load (i : nat) (buf : list Z) : Z := default 0 (buf !! i).

(** [buf[i] = (BYTE)v]. *)
Definition store (i : nat) (v : Z) (buf : list Z) : list Z :=
  <[i := to_BYTE v]> buf.

(** [RtlZeroMemory(&buf[off], n)]: [n] byte stores of zero. *)
Definition RtlZeroMemory (off n : nat) (buf : list Z) : list Z :=
  foldl (fun b i => store i 0 b) buf (seq off n).

Arguments load i%_nat buf.
Arguments store i%_nat v%_Z buf.
Arguments RtlZeroMemory off%_nat n%_nat buf.

End Win.

(** ** Edid.cpp *)
Module Edid.
Import Win.

(** Driver.h: [#define EDID_SIZE 256] *)
Definition EDID_SIZE : nat := 256.

Definition displayName : string := "ExpandScreen".

(** [(BYTE)displayName[i]] *)
Definition char_at (s : string) (i : nat) : Z :=
  match String.get i s with
  | Some c => Z.of_nat (Ascii.nat_of_ascii c)
  | None => 0
  end.

(** The name loop: [for (i = 0; i < 13 && i < nameLen; i++)
    EdidBuffer[77 + i] = (BYTE)displayName[i];] *)
Definition copy_name (name : string) (buf : list Z) : list Z :=
  foldl (fun b i => store (77 + i) (char_at name i) b) buf
        (seq 0 (Nat.min 13 (String.length name))).

(** The checksum loop: [BYTE checksum = 0;
    for (i = 0; i < 127; i++) checksum += EdidBuffer[i];] *)
Definition checksum_loop (buf : list Z) : Z :=
  foldl (fun checksum i => to_BYTE (checksum + load i buf)) 0 (seq 0 127).

(** [GenerateEdid(EdidBuffer, Width, Height)].  The buffer pointer is
    [None] for [nullptr]; the result is the status and the buffer as the
    call leaves it. *)
Definition GenerateEdid (EdidBuffer : option (list Z)) (Width Height : Z)
  : NTSTATUS * option (list Z) :=
  match EdidBuffer with
  | None => (STATUS_INVALID_PARAMETER, None)
  | Some b =>
    let b := RtlZeroMemory 0 EDID_SIZE b in
    (* EDID Header (8 bytes) *)
    let b := store 0 0x00 b in
    let b := store 1 0xFF b in
    let b := store 2 0xFF b in
    let b := store 3 0xFF b in
    let b := store 4 0xFF b in
    let b := store 5 0xFF b in
    let b := store 6 0xFF b in
    let b := store 7 0x00 b in
    (* Manufacturer ID *)
    let b := store 8 0x15 b in
    let b := store 9 0x30 b in
    (* Product Code *)
    let b := store 10 0x01 b in
    let b := store 11 0x00 b in
    (* Serial Number *)
    let b := store 12 0x01 b in
    let b := store 13 0x00 b in
    let b := store 14 0x00 b in
    let b := store 15 0x00 b in
    (* Week and year of manufacture *)
    let b := store 16 0x01 b in
    let b := store 17 0x24 b in
    (* EDID version 1.4 *)
    let b := store 18 0x01 b in
    let b := store 19 0x04 b in
    (* Video Input Definition *)
    let b := store 20 0x95 b in
    (* Max horizontal and vertical image size (cm) *)
    let b := store 21 (to_UINT (Width * 254) / 960 / 10) b in
    let b := store 22 (to_UINT (Height * 254) / 960 / 10) b in
    (* Display gamma, feature support *)
    let b := store 23 0x78 b in
    let b := store 24 0x2A b in
    (* Color characteristics *)
    let b := store 25 0x0D b in
    let b := store 26 0xC9 b in
    let b := store 27 0xA0 b in
    let b := store 28 0x57 b in
    let b := store 29 0x47 b in
    let b := store 30 0x98 b in
    let b := store 31 0x27 b in
    let b := store 32 0x12 b in
    let b := store 33 0x48 b in
    let b := store 34 0x4C b in
    (* Established timing bitmap *)
    let b := store 35 0x00 b in
    let b := store 36 0x00 b in
    let b := store 37 0x00 b in
    (* Standard timing information *)
    let b := RtlZeroMemory 38 16 b in
    (* Detailed timing descriptor 1: preferred timing *)
    let pixelClock := to_UINT (to_UINT (Width * Height) * 60) / 10000 in
    let b := store 54 (Z.land pixelClock 0xFF) b in
    let b := store 55 (Z.land (Z.shiftr pixelClock 8) 0xFF) b in
    let b := store 56 (Z.land Width 0xFF) b in
    let b := store 57 0x30 b in
    let b := store 58 (Z.shiftl (Z.land (Z.shiftr Width 8) 0x0F) 4) b in
    let b := store 59 (Z.land Height 0xFF) b in
    let b := store 60 0x1E b in
    let b := store 61 (Z.shiftl (Z.land (Z.shiftr Height 8) 0x0F) 4) b in
    let b := RtlZeroMemory 62 10 b in
    (* Detailed timing descriptor 2: display name *)
    let b := store 72 0x00 b in
    let b := store 73 0x00 b in
    let b := store 74 0x00 b in
    let b := store 75 0xFC b in
    let b := store 76 0x00 b in
    let nameLen := String.length displayName in
    let b := copy_name displayName b in
    let b := store (77 + nameLen) 0x0A b in
    (* Detailed timing descriptors 3 and 4: empty *)
    let b := RtlZeroMemory 90 36 b in
    (* Extension flag *)
    let b := store 126 0x00 b in
    (* Checksum *)
    let checksum := checksum_loop b in
    let b := store 127 (256 - checksum) b in
    (STATUS_SUCCESS, Some b)
  end.

End Edid.


(** ** Driver.h: the mode catalog *)
Module Modes.
Import Win.

Record DISPLAY_MODE := {
  Width : Z;
  Height : Z;
  RefreshRate : Z
}.

Definition g_SupportedModes : list DISPLAY_MODE :=
  [ {| Width := 1920; Height := 1080; RefreshRate := 60 |};
    {| Width := 1920; Height := 1080; RefreshRate := 120 |};
    {| Width := 2560; Height := 1600; RefreshRate := 60 |};
    {| Width := 1280; Height := 720; RefreshRate := 60 |};
    {| Width := 3840; Height := 2160; RefreshRate := 60 |} ].

(** [sizeof(g_SupportedModes) / sizeof(DISPLAY_MODE)] *)
Definition SUPPORTED_MODE_COUNT : Z := Z.of_nat (length g_SupportedModes).

(** [g_SupportedModes[i]], for [i] below [SUPPORTED_MODE_COUNT]. *)
Definition mode_at (i : nat) : DISPLAY_MODE :=
  default {| Width := 0; Height := 0; RefreshRate := 0 |} (g_SupportedModes !! i).

End Modes.

(** ** Host structures the mode callbacks fill in (IddCx.h, as the driver
       uses them).  The [Size] members, which only carry [sizeof] of their
       structure, are left out. *)
Module IddCx.

Record SIZE2D := { cx : Z; cy : Z }.

Record RATIONAL := { Numerator : Z; Denominator : Z }.

Inductive VIDEO_STANDARD := D3DKMDT_VMS_UNINITIALIZED | D3DKMDT_VMS_OTHER.

Inductive SCANLINE_ORDERING :=
  D3DDDI_VSSLO_UNINITIALIZED | D3DDDI_VSSLO_PROGRESSIVE | D3DDDI_VSSLO_INTERLACED.

Inductive MODE_ORIGIN :=
  IDDCX_MONITOR_MODE_ORIGIN_UNINITIALIZED
| IDDCX_MONITOR_MODE_ORIGIN_MONITORDESCRIPTOR
| IDDCX_MONITOR_MODE_ORIGIN_DRIVER.

Record VIDEO_SIGNAL_INFO := {
  VideoStandard : VIDEO_STANDARD;
  TotalSize : SIZE2D;
  ActiveSize : SIZE2D;
  VSyncFreq : RATIONAL;
  HSyncFreq : RATIONAL;
  PixelRate : Z;
  ScanLineOrdering : SCANLINE_ORDERING
}.

Record IDDCX_MONITOR_MODE := {
  Origin : MODE_ORIGIN;
  MonitorVideoSignalInfo : VIDEO_SIGNAL_INFO
}.

(** [RequiredBandwidth] stands for the members the driver never writes. *)
Record IDDCX_TARGET_MODE := {
  TargetVideoSignalInfo : VIDEO_SIGNAL_INFO;
  RequiredBandwidth : Z
}.

Record IDARG_IN_GETDEFAULTDESCRIPTIONMODES := {
  DefaultMonitorModeBufferInputCount : Z;
  pDefaultMonitorModes : list IDDCX_MONITOR_MODE
}.

Record IDARG_OUT_GETDEFAULTDESCRIPTIONMODES := {
  DefaultMonitorModeBufferOutputCount : Z;
  PreferredMonitorModeIdx : Z
}.

Record IDARG_IN_QUERYTARGETMODES := {
  TargetModeBufferInputCount : Z;
  pTargetModes : list IDDCX_TARGET_MODE
}.

Record IDARG_OUT_QUERYTARGETMODES := {
  TargetModeBufferOutputCount : Z
}.

Inductive MONITOR_TYPE := DISPLAYCONFIG_OUTPUT_TECHNOLOGY_DISPLAYPORT_EXTERNAL.

Inductive DESCRIPTION_TYPE := IDDCX_MONITOR_DESCRIPTION_TYPE_EDID.

Record IDDCX_MONITOR_DESCRIPTION := {
  Type_ : DESCRIPTION_TYPE;
  DataSize : Z;
  pData : list Z
}.

Record IDDCX_MONITOR_INFO := {
  ConnectorIndex : Z;
  MonitorType : MONITOR_TYPE;
  MonitorDescription : IDDCX_MONITOR_DESCRIPTION
}.

(** What the host answers to the three calls of one [CreateMonitor]. *)
Record MonitorHost := {
  IddCxMonitorCreate : Win.NTSTATUS;
  IddCxMonitorSetCallbacks : Win.NTSTATUS;
  IddCxMonitorArrival : Win.NTSTATUS
}.

End IddCx.

(** ** Monitor.cpp: the mode callbacks *)
Module MonitorModes.
Import Win Modes IddCx.

(** Body of the loop of [ExpandScreenEvtMonitorGetDefaultModes]:
    the stores through [pMode = &pInArgs->pDefaultMonitorModes[i]]. *)
Definition fill_monitor_mode (i : nat) (pMode : IDDCX_MONITOR_MODE)
  : IDDCX_MONITOR_MODE :=
  {| Origin := IDDCX_MONITOR_MODE_ORIGIN_DRIVER;
     MonitorVideoSignalInfo :=
       {| VideoStandard := D3DKMDT_VMS_OTHER;
          TotalSize := {| cx := Width (mode_at i); cy := Height (mode_at i) |};
          ActiveSize := {| cx := Width (mode_at i); cy := Height (mode_at i) |};
          VSyncFreq := {| Numerator := RefreshRate (mode_at i);
                          Denominator := 1 |};
          HSyncFreq :=
            {| Numerator :=
                 to_UINT (RefreshRate (mode_at i) * Height (mode_at i));
               Denominator := 1 |};
          PixelRate :=
            to_UINT64 (to_UINT64 (Width (mode_at i) * Height (mode_at i))
                       * RefreshRate (mode_at i));
          ScanLineOrdering := D3DDDI_VSSLO_PROGRESSIVE |} |}.

Definition ExpandScreenEvtMonitorGetDefaultModes
    (pInArgs : IDARG_IN_GETDEFAULTDESCRIPTIONMODES)
  : NTSTATUS * IDARG_OUT_GETDEFAULTDESCRIPTIONMODES * list IDDCX_MONITOR_MODE :=
  let modeCount :=
    Z.min (DefaultMonitorModeBufferInputCount pInArgs) SUPPORTED_MODE_COUNT in
  let modes :=
    foldl (fun buf i => alter (fill_monitor_mode i) i buf)
          (pDefaultMonitorModes pInArgs) (seq 0 (Z.to_nat modeCount)) in
  (STATUS_SUCCESS,
   {| DefaultMonitorModeBufferOutputCount := modeCount;
      PreferredMonitorModeIdx := 0 |},
   modes).

(** Body of the loop of [ExpandScreenEvtMonitorQueryTargetModes]:
    the stores through [pMode = &pInArgs->pTargetModes[i]]. *)
Definition fill_target_mode (i : nat) (pMode : IDDCX_TARGET_MODE)
  : IDDCX_TARGET_MODE :=
  {| TargetVideoSignalInfo :=
       {| VideoStandard := D3DKMDT_VMS_OTHER;
          TotalSize := {| cx := Width (mode_at i); cy := Height (mode_at i) |};
          ActiveSize := {| cx := Width (mode_at i); cy := Height (mode_at i) |};
          VSyncFreq := {| Numerator := RefreshRate (mode_at i);
                          Denominator := 1 |};
          HSyncFreq :=
            {| Numerator :=
                 to_UINT (RefreshRate (mode_at i) * Height (mode_at i));
               Denominator := 1 |};
          PixelRate :=
            to_UINT64 (to_UINT64 (Width (mode_at i) * Height (mode_at i))
                       * RefreshRate (mode_at i));
          ScanLineOrdering := D3DDDI_VSSLO_PROGRESSIVE |};
     RequiredBandwidth := RequiredBandwidth pMode |}.

Definition ExpandScreenEvtMonitorQueryTargetModes
    (pInArgs : IDARG_IN_QUERYTARGETMODES)
  : NTSTATUS * IDARG_OUT_QUERYTARGETMODES * list IDDCX_TARGET_MODE :=
  let modeCount :=
    Z.min (TargetModeBufferInputCount pInArgs) SUPPORTED_MODE_COUNT in
  let modes :=
    foldl (fun buf i => alter (fill_target_mode i) i buf)
          (pTargetModes pInArgs) (seq 0 (Z.to_nat modeCount)) in
  (STATUS_SUCCESS, {| TargetModeBufferOutputCount := modeCount |}, modes).

End MonitorModes.

(** ** Driver state shared by Monitor.cpp, Adapter.cpp and Ioctl.cpp *)
Module Driver.
Import Win IddCx.

(** [MONITOR_CONTEXT], without the host handles of the monitor and of its
    adapter; [SwapChain] is [None] for [nullptr]. *)
Record MONITOR_CONTEXT := {
  MonitorId : Z;
  IsActive : bool;
  SwapChain : option Z
}.

(** The state the three files share.
    - [g_MonitorIdCounter]: the [LONG] of Monitor.cpp.  Ioctl.cpp
      increments a variable of the same name; Monitor.cpp declares it
      [static] and no header declares it, so the two are taken for the one
      variable, the only one Ioctl.cpp can mean;
    - [MonitorCount]: [DEVICE_CONTEXT.MonitorCount];
    - [MonitorCreateCalls]: the [monitorInfo] of every call of
      [IddCxMonitorCreate], oldest first;
    - [Monitors]: the context of every monitor object the host created,
      oldest first;
    - [Increments]: a history variable no code reads, the number of
      [InterlockedIncrement(&g_MonitorIdCounter)] executed so far. *)
Record World := {
  g_MonitorIdCounter : Z;
  MonitorCount : Z;
  MonitorCreateCalls : list IDDCX_MONITOR_INFO;
  Monitors : list MONITOR_CONTEXT;
  Increments : Z
}.

(** [static LONG g_MonitorIdCounter = 0;] and the zeroed device context of
    [ExpandScreenEvtDeviceAdd]. *)
Definition initial : World :=
  {| g_MonitorIdCounter := 0;
     MonitorCount := 0;
     MonitorCreateCalls := [];
     Monitors := [];
     Increments := 0 |}.

(** [InterlockedIncrement(&g_MonitorIdCounter)]: the value returned and the
    state after it. *)
Definition next_id (w : World) : Z * World :=
  let v := InterlockedIncrement (g_MonitorIdCounter w) in
  (v, {| g_MonitorIdCounter := v;
         MonitorCount := MonitorCount w;
         MonitorCreateCalls := MonitorCreateCalls w;
         Monitors := Monitors w;
         Increments := Increments w + 1 |}).

(** [InterlockedIncrement(&deviceContext->MonitorCount)] *)
Definition count_monitor (w : World) : World :=
  {| g_MonitorIdCounter := g_MonitorIdCounter w;
     MonitorCount := InterlockedIncrement (MonitorCount w);
     MonitorCreateCalls := MonitorCreateCalls w;
     Monitors := Monitors w;
     Increments := Increments w |}.

(** The call [IddCxMonitorCreate(Adapter, &monitorCreate, &monitorCreateOut)],
    as the host sees it. *)
Definition call_MonitorCreate (info : IDDCX_MONITOR_INFO) (w : World) : World :=
  {| g_MonitorIdCounter := g_MonitorIdCounter w;
     MonitorCount := MonitorCount w;
     MonitorCreateCalls := MonitorCreateCalls w ++ [info];
     Monitors := Monitors w;
     Increments := Increments w |}.

(** The stores through [monitorContext], on a monitor object just created. *)
Definition init_context (ctx : MONITOR_CONTEXT) (w : World) : World :=
  {| g_MonitorIdCounter := g_MonitorIdCounter w;
     MonitorCount := MonitorCount w;
     MonitorCreateCalls := MonitorCreateCalls w;
     Monitors := Monitors w ++ [ctx];
     Increments := Increments w |}.

(** Monitor.cpp: [CreateMonitor(Adapter, &Monitor)]. *)
Definition CreateMonitor (host : MonitorHost) (w : World) : NTSTATUS * World :=
  let '(id, w) := next_id w in
  let ConnectorIndex := to_UINT id in
  let edidData := replicate Edid.EDID_SIZE 0 in
  let '(status, edid) := Edid.GenerateEdid (Some edidData) 1920 1080 in
  if negb (NT_SUCCESS status) then (status, w) else
  let monitorInfo :=
    {| ConnectorIndex := ConnectorIndex;
       MonitorType := DISPLAYCONFIG_OUTPUT_TECHNOLOGY_DISPLAYPORT_EXTERNAL;
       MonitorDescription :=
         {| Type_ := IDDCX_MONITOR_DESCRIPTION_TYPE_EDID;
            DataSize := Z.of_nat Edid.EDID_SIZE;
            pData := default edidData edid |} |} in
  let w := call_MonitorCreate monitorInfo w in
  let status := IddCxMonitorCreate host in
  if negb (NT_SUCCESS status) then (status, w) else
  let w := init_context {| MonitorId := ConnectorIndex;
                           IsActive := false;
                           SwapChain := None |} w in
  let status := IddCxMonitorSetCallbacks host in
  if negb (NT_SUCCESS status) then (status, w) else
  let status := IddCxMonitorArrival host in
  if negb (NT_SUCCESS status) then (status, w) else
  (STATUS_SUCCESS, w).

(** Adapter.cpp: [ExpandScreenEvtAdapterInitFinished(AdapterObject, pInArgs)]. *)
Definition ExpandScreenEvtAdapterInitFinished
    (AdapterInitStatus : NTSTATUS) (host : MonitorHost) (w : World)
  : NTSTATUS * World :=
  if negb (NT_SUCCESS AdapterInitStatus) then (AdapterInitStatus, w) else
  let '(status, w) := CreateMonitor host w in
  if negb (NT_SUCCESS status) then (status, w) else
  (STATUS_SUCCESS, count_monitor w).

(** Driver.h: [CTL_CODE] (devioctl.h) and the three request codes. *)
Definition CTL_CODE (DeviceType Function Method Access : Z) : Z :=
  Z.lor (Z.lor (Z.lor (Z.shiftl DeviceType 16) (Z.shiftl Access 14))
               (Z.shiftl Function 2)) Method.

Definition FILE_DEVICE_VIDEO : Z := 0x23.
Definition METHOD_BUFFERED : Z := 0.
Definition FILE_ANY_ACCESS : Z := 0.
Definition FILE_READ_ACCESS : Z := 1.

Definition IOCTL_EXPANDSCREEN_CREATE_MONITOR : Z :=
  CTL_CODE FILE_DEVICE_VIDEO 0x800 METHOD_BUFFERED FILE_ANY_ACCESS.

Definition IOCTL_EXPANDSCREEN_DESTROY_MONITOR : Z :=
  CTL_CODE FILE_DEVICE_VIDEO 0x801 METHOD_BUFFERED FILE_ANY_ACCESS.

Definition IOCTL_EXPANDSCREEN_GET_ADAPTER_INFO : Z :=
  CTL_CODE FILE_DEVICE_VIDEO 0x802 METHOD_BUFFERED FILE_READ_ACCESS.

Record EXPANDSCREEN_CREATE_MONITOR_INPUT := {
  in_Width : Z;
  in_Height : Z;
  in_RefreshRate : Z
}.

Record EXPANDSCREEN_CREATE_MONITOR_OUTPUT := {
  out_MonitorId : Z;
  out_Status : NTSTATUS
}.

Record EXPANDSCREEN_ADAPTER_INFO := {
  info_MonitorCount : Z;
  info_MaxMonitors : Z
}.

(** A [WDFREQUEST]: what [WdfRequestRetrieveInputBuffer] and
    [WdfRequestRetrieveOutputBuffer] answer, the input record, and the host's
    answers in case the request creates a monitor. *)
Record WDFREQUEST := {
  RetrieveInputBuffer : NTSTATUS;
  pInput : EXPANDSCREEN_CREATE_MONITOR_INPUT;
  RetrieveOutputBuffer : NTSTATUS;
  MonitorHostReplies : MonitorHost
}.

(** What a request leaves in its output buffer. *)
Inductive OutputRecord :=
| NothingWritten
| CreateMonitorOutput (o : EXPANDSCREEN_CREATE_MONITOR_OUTPUT)
| AdapterInfoOutput (o : EXPANDSCREEN_ADAPTER_INFO).

(** [WdfRequestCompleteWithInformation(Request, status, bytesReturned)],
    with the output buffer as the handler left it. *)
Record Completion := {
  CompletionStatus : NTSTATUS;
  bytesReturned : Z;
  pOutput : OutputRecord
}.

(** Ioctl.cpp: [ExpandScreenEvtIoDeviceControl]. *)
Definition ExpandScreenEvtIoDeviceControl
    (Request : WDFREQUEST) (IoControlCode : Z) (w : World)
  : Completion * World :=
  if IoControlCode =? IOCTL_EXPANDSCREEN_CREATE_MONITOR then
    let status := RetrieveInputBuffer Request in
    if negb (NT_SUCCESS status) then
      ({| CompletionStatus := status; bytesReturned := 0;
          pOutput := NothingWritten |}, w)
    else
    let status := RetrieveOutputBuffer Request in
    if negb (NT_SUCCESS status) then
      ({| CompletionStatus := status; bytesReturned := 0;
          pOutput := NothingWritten |}, w)
    else
    let '(status, w) := CreateMonitor (MonitorHostReplies Request) w in
    if NT_SUCCESS status then
      let w := count_monitor w in
      let '(id, w) := next_id w in
      ({| CompletionStatus := STATUS_SUCCESS;
          bytesReturned := 8;
          pOutput := CreateMonitorOutput
                       {| out_MonitorId := to_UINT id;
                          out_Status := STATUS_SUCCESS |} |}, w)
    else
      ({| CompletionStatus := STATUS_SUCCESS;
          bytesReturned := 0;
          pOutput := CreateMonitorOutput
                       {| out_MonitorId := 0; out_Status := status |} |}, w)
  else if IoControlCode =? IOCTL_EXPANDSCREEN_DESTROY_MONITOR then
    ({| CompletionStatus := STATUS_NOT_IMPLEMENTED; bytesReturned := 0;
        pOutput := NothingWritten |}, w)
  else if IoControlCode =? IOCTL_EXPANDSCREEN_GET_ADAPTER_INFO then
    let status := RetrieveOutputBuffer Request in
    if negb (NT_SUCCESS status) then
      ({| CompletionStatus := status; bytesReturned := 0;
          pOutput := NothingWritten |}, w)
    else
      ({| CompletionStatus := STATUS_SUCCESS;
          bytesReturned := 8;
          pOutput := AdapterInfoOutput
                       {| info_MonitorCount := to_UINT (MonitorCount w);
                          info_MaxMonitors := 4 |} |}, w)
  else
    ({| CompletionStatus := STATUS_INVALID_DEVICE_REQUEST; bytesReturned := 0;
        pOutput := NothingWritten |}, w).

End Driver.

(** ** SwapChain.cpp *)
Module SwapChain.
Import Win.

Record SWAPCHAIN_CONTEXT := {
  hSwapChain : Z;
  TerminateThread : bool
}.

(** One call of [IddCxSwapChainReleaseAndAcquireBuffer(swapChain, pInArgs,
    pOutArgs)]: the surface named by the input arguments (0 for none) and
    whether an output structure is passed ([false] for [nullptr]). *)
Record BufferCall := {
  call_SwapChain : Z;
  call_pSurface : Z;
  call_wantsOutput : bool
}.

(** What the host answers during one frame step: status and output of the
    first call, status of the second. *)
Record BufferHost := {
  acquire_status : NTSTATUS;
  DirtyRectCount : Z;
  pSurface : Z;
  release_status : NTSTATUS
}.

(** What the step does that can be seen from outside: host calls and the
    trace lines of its branches. *)
Inductive Effect :=
| Call (c : BufferCall)
| TraceAcquireFailed (status : NTSTATUS)
| TraceSkipFrame
| TraceProcessFrame (dirtyRects : Z)
| TraceReleaseFailed (status : NTSTATUS).

(** [ProcessSwapChainFrame(SwapChainContext)]: the status returned and the
    effects, in order. *)
Definition ProcessSwapChainFrame (SwapChainContext : SWAPCHAIN_CONTEXT)
    (host : BufferHost) : NTSTATUS * list Effect :=
  let swapChain := hSwapChain SwapChainContext in
  let acquire := Call {| call_SwapChain := swapChain; call_pSurface := 0;
                         call_wantsOutput := true |} in
  let status := acquire_status host in
  if negb (NT_SUCCESS status) then
    (status,
     [acquire] ++
     (if negb (status =? STATUS_PENDING) then [TraceAcquireFailed status]
      else []))
  else
  let frame :=
    if DirtyRectCount host =? 0 then [TraceSkipFrame]
    else [TraceProcessFrame (DirtyRectCount host)] in
  let release := Call {| call_SwapChain := swapChain;
                         call_pSurface := pSurface host;
                         call_wantsOutput := false |} in
  let status := release_status host in
  (status,
   [acquire] ++ frame ++ [release] ++
   (if negb (NT_SUCCESS status) then [TraceReleaseFailed status] else [])).

(** The second kind of call: a surface handed back, no output requested. *)
Definition is_release (e : Effect) : bool :=
  match e with
  | Call c => negb (call_wantsOutput c)
  | _ => false
  end.

Definition releases (es : list Effect) : nat :=
  length (filter (fun e => is_release e = true) es).

End SwapChain.

(** ** Runs of the driver: the host and user-mode callers drive the callbacks
       of Adapter.cpp and Ioctl.cpp in any order. *)
Module Run.
Import Win IddCx Driver.

Inductive Event :=
| AdapterInitFinished (AdapterInitStatus : NTSTATUS) (host : MonitorHost)
| IoDeviceControl (Request : WDFREQUEST) (IoControlCode : Z).

Inductive Outcome :=
| Returned (status : NTSTATUS)
| Completed (c : Completion).

Definition step (e : Event) (w : World) : Outcome * World :=
  match e with
  | AdapterInitFinished st host =>
      let '(r, w) := ExpandScreenEvtAdapterInitFinished st host w in
      (Returned r, w)
  | IoDeviceControl req code =>
      let '(c, w) := ExpandScreenEvtIoDeviceControl req code w in
      (Completed c, w)
  end.

Fixpoint run (es : list Event) (w : World) : list Outcome * World :=
  match es with
  | [] => ([], w)
  | e :: es =>
      let '(o, w) := step e w in
      let '(os, w) := run es w in
      (o :: os, w)
  end.

(** A monitor creation that succeeded, read off what the caller sees: the
    init-finished callback returns success, or a create request leaves a
    success status in its output record. *)
Definition created (e : Event) (o : Outcome) : bool :=
  match e, o with
  | AdapterInitFinished _ _, Returned r => NT_SUCCESS r
  | IoDeviceControl _ _, Completed c =>
      match pOutput c with
      | CreateMonitorOutput out => NT_SUCCESS (out_Status out)
      | _ => false
      end
  | _, _ => false
  end.

(** A monitor destruction that succeeded: a destroy request completed with a
    success status. *)
Definition destroyed (e : Event) (o : Outcome) : bool :=
  match e, o with
  | IoDeviceControl _ code, Completed c =>
      (code =? IOCTL_EXPANDSCREEN_DESTROY_MONITOR)
      && NT_SUCCESS (CompletionStatus c)
  | _, _ => false
  end.

(** Number of events of a run that satisfy [p]. *)
Definition count (p : Event -> Outcome -> bool) (es : list Event)
    (os : list Outcome) : Z :=
  Z.of_nat (length (filter (fun eo => p eo.1 eo.2 = true) (zip es os))).

(** The ids given to monitors, in the order [CreateMonitor] drew them. *)
Definition monitor_ids (w : World) : list Z :=
  ConnectorIndex <$> MonitorCreateCalls w.

End Run.

(** ** Specification vocabulary *)

(** Sum of a run of bytes. *)
Definition byte_sum (l : list Z) : Z := foldr Z.add 0 l.

(** The 128-byte base block at the start of a descriptor buffer. *)
Definition base_block (buf : list Z) : list Z := take 128 buf.

(** Little-endian 16-bit field at offset [i]. *)
Definition le16 (buf : list Z) (i : nat) : Z :=
  Win.load i buf + 256 * Win.load (S i) buf.

(** Rounding [a / b] to the nearest integer, halves up ([0 < b]). *)
Definition round_div (a b : Z) : Z := (2 * a + b) / (2 * b).

(** The counter holds the number of increments so far, as a [LONG]. *)
Definition coupled (w : Driver.World) : Prop :=
  Driver.g_MonitorIdCounter w = Win.to_LONG (Driver.Increments w).

(** [ids] are the values, as [UINT], of increments number [lo + 1] to [hi]
    of the counter, taken in order (not necessarily all of them). *)
Definition drawn (lo hi : Z) (ids : list Z) : Prop :=
  exists ks, ids = Win.to_UINT <$> ks /\
    StronglySorted Z.lt ks /\ Forall (fun k => lo < k <= hi) ks.

(** What one event can change. *)
Definition step_summary (e : Run.Event) (w : Driver.World) (o : Run.Outcome)
    (w' : Driver.World)
  : Prop :=
  Driver.Increments w <= Driver.Increments w' <= Driver.Increments w + 2 /\
  (coupled w -> coupled w') /\
  (exists newc newm,
     Driver.MonitorCreateCalls w' = Driver.MonitorCreateCalls w ++ newc /\
     Driver.Monitors w' = Driver.Monitors w ++ newm /\
     (coupled w ->
      drawn (Driver.Increments w) (Driver.Increments w')
            (IddCx.ConnectorIndex <$> newc) /\
      drawn (Driver.Increments w) (Driver.Increments w')
            (Driver.MonitorId <$> newm))) /\
  Driver.MonitorCount w'
  = (if Run.created e o then Win.InterlockedIncrement (Driver.MonitorCount w)
     else Driver.MonitorCount w) /\
  Run.destroyed e o = false.

(** A host that lets monitor creation through, and a create request whose
    buffers are there. *)
Definition host_ok : IddCx.MonitorHost :=
  {| IddCx.IddCxMonitorCreate := Win.STATUS_SUCCESS;
     IddCx.IddCxMonitorSetCallbacks := Win.STATUS_SUCCESS;
     IddCx.IddCxMonitorArrival := Win.STATUS_SUCCESS |}.

Definition request_ok : Driver.WDFREQUEST :=
  {| Driver.RetrieveInputBuffer := Win.STATUS_SUCCESS;
     Driver.pInput := {| Driver.in_Width := 2560; Driver.in_Height := 1600;
                         Driver.in_RefreshRate := 60 |};
     Driver.RetrieveOutputBuffer := Win.STATUS_SUCCESS;
     Driver.MonitorHostReplies := host_ok |}.

(** The init-finished callback reporting success to a willing host. *)
Definition boot : Run.Event := Run.AdapterInitFinished Win.STATUS_SUCCESS host_ok.

(** Mode buffer entries as a caller may pass them, not yet filled in. *)
Definition blank_signal : IddCx.VIDEO_SIGNAL_INFO :=
  {| IddCx.VideoStandard := IddCx.D3DKMDT_VMS_UNINITIALIZED;
     IddCx.TotalSize := {| IddCx.cx := 0; IddCx.cy := 0 |};
     IddCx.ActiveSize := {| IddCx.cx := 0; IddCx.cy := 0 |};
     IddCx.VSyncFreq := {| IddCx.Numerator := 0; IddCx.Denominator := 0 |};
     IddCx.HSyncFreq := {| IddCx.Numerator := 0; IddCx.Denominator := 0 |};
     IddCx.PixelRate := 0;
     IddCx.ScanLineOrdering := IddCx.D3DDDI_VSSLO_UNINITIALIZED |}.

Definition blank_monitor_mode : IddCx.IDDCX_MONITOR_MODE :=
  {| IddCx.Origin := IddCx.IDDCX_MONITOR_MODE_ORIGIN_UNINITIALIZED;
     IddCx.MonitorVideoSignalInfo := blank_signal |}.

Definition blank_target_mode : IddCx.IDDCX_TARGET_MODE :=
  {| IddCx.TargetVideoSignalInfo := blank_signal;
     IddCx.RequiredBandwidth := 0 |}.

(** ** Reading descriptor fields back (layout of the E-EDID base block) *)

(** A 12-bit active size: the low eight bits in byte [lo], the upper four in
    the high nibble of byte [hi]. *)
Definition active12 (buf : list Z) (lo hi : nat) : Z :=
  Win.load lo buf + 256 * (Win.load hi buf / 16).

(** The three 5-bit letters (1 for A) of the manufacturer id, bytes 8 and 9,
    most significant byte first. *)
Definition pnp_letters (buf : list Z) : list Z :=
  let v := 256 * Win.load 8 buf + Win.load 9 buf in
  [ (v / 1024) mod 32; (v / 32) mod 32; v mod 32 ].

(** Character codes of a string. *)
Definition codes (s : string) : list Z :=
  (fun c => Z.of_nat (Ascii.nat_of_ascii c)) <$> String.list_ascii_of_string s.

(** ** Monitor.cpp: the swap-chain callbacks *)
Module MonitorSwapChain.
Import Win Driver.

(** [ExpandScreenEvtMonitorAssignSwapChain(MonitorObject, pInArgs)], on the
    context of the monitor; [hSwapChain] is [None] for a null handle. *)
Definition ExpandScreenEvtMonitorAssignSwapChain (hSwapChain : option Z)
    (monitorContext : MONITOR_CONTEXT) : NTSTATUS * MONITOR_CONTEXT :=
  (STATUS_SUCCESS,
   {| MonitorId := MonitorId monitorContext;
      IsActive := true;
      SwapChain := hSwapChain |}).

(** [ExpandScreenEvtMonitorUnassignSwapChain(MonitorObject)]. *)
Definition ExpandScreenEvtMonitorUnassignSwapChain
    (monitorContext : MONITOR_CONTEXT) : NTSTATUS * MONITOR_CONTEXT :=
  (STATUS_SUCCESS,
   {| MonitorId := MonitorId monitorContext;
      IsActive := false;
      SwapChain := None |}).

(** The host assigns and unassigns swap chains on one monitor, in any
    order. *)
Inductive SwapChainEvent :=
| AssignSwapChain (hSwapChain : option Z)
| UnassignSwapChain.

Definition deliver (e : SwapChainEvent) (ctx : MONITOR_CONTEXT)
  : NTSTATUS * MONITOR_CONTEXT :=
  match e with
  | AssignSwapChain h => ExpandScreenEvtMonitorAssignSwapChain h ctx
  | UnassignSwapChain => ExpandScreenEvtMonitorUnassignSwapChain ctx
  end.

Definition deliver_all (es : list SwapChainEvent) (ctx : MONITOR_CONTEXT)
  : MONITOR_CONTEXT :=
  foldl (fun c e => (deliver e c).2) ctx es.

(** The context [CreateMonitor] initialises for id [id]. *)
Definition fresh_context (id : Z) : MONITOR_CONTEXT :=
  {| MonitorId := id; IsActive := false; SwapChain := None |}.

End MonitorSwapChain.

(** ** Driver.cpp, and the initialisation routines of Adapter.cpp and
       Ioctl.cpp it is meant to call.  Handles are numbers, 0 for [nullptr]. *)
Module Lifecycle.
Import Win.

Inductive WDF_POWER_DEVICE_STATE :=
| WdfPowerDeviceInvalid
| WdfPowerDeviceD0
| WdfPowerDeviceD1
| WdfPowerDeviceD2
| WdfPowerDeviceD3
| WdfPowerDeviceD3Final
| WdfPowerDevicePrepareForHibernation
| WdfPowerDeviceMaximum.

(** Driver.h: [DEVICE_CONTEXT]. *)
Record DEVICE_CONTEXT := {
  Device : Z;
  Adapter : Z;
  PowerState : WDF_POWER_DEVICE_STATE;
  MonitorCount : Z
}.

(** [RtlZeroMemory(deviceContext, sizeof(DEVICE_CONTEXT))]. *)
Definition zeroed : DEVICE_CONTEXT :=
  {| Device := 0; Adapter := 0; PowerState := WdfPowerDeviceInvalid;
     MonitorCount := 0 |}.

Inductive FEATURE_IMPLEMENTATION :=
| IDDCX_FEATURE_IMPLEMENTATION_UNINITIALIZED
| IDDCX_FEATURE_IMPLEMENTATION_NONE
| IDDCX_FEATURE_IMPLEMENTATION_HARDWARE.

Inductive TRANSMISSION_TYPE :=
| IDDCX_TRANSMISSION_TYPE_UNINITIALIZED
| IDDCX_TRANSMISSION_TYPE_WIRED_OTHER
| IDDCX_TRANSMISSION_TYPE_OTHER.

Record IDDCX_ADAPTER_CAPS := {
  MaxMonitorsSupported : Z;
  GammaSupport : FEATURE_IMPLEMENTATION;
  TransmissionType : TRANSMISSION_TYPE;
  StaticDesktopReencodeFrameCount : Z
}.

(** The framework and host calls of these routines, as the framework sees
    them. *)
Inductive FrameworkCall :=
| WPP_INIT_TRACING
| WPP_CLEANUP
| WdfDriverCreate
| WdfDeviceInitSetPnpPowerEventCallbacks
| WdfDeviceInitSetIoType
| WdfDeviceCreate
| IddCxAdapterInitAsync (caps : IDDCX_ADAPTER_CAPS)
| IddCxAdapterInitSetCallbacks (adapter : Z)
| WdfDeviceCreateDeviceInterface (device : Z)
| WdfIoQueueCreate (device : Z).

(** What the host answers to the two calls of [InitializeIddCxAdapter]. *)
Record AdapterHost := {
  InitAsync : NTSTATUS;
  AdapterObject : Z;
  InitSetCallbacks : NTSTATUS
}.

(** Adapter.cpp: [InitializeIddCxAdapter(Device, DeviceContext)].  The body
    writes [deviceContext], which is read as the parameter. *)
Definition InitializeIddCxAdapter (host : AdapterHost) (device : Z)
    (DeviceContext : DEVICE_CONTEXT)
  : NTSTATUS * DEVICE_CONTEXT * list FrameworkCall :=
  let adapterCaps :=
    {| MaxMonitorsSupported := 4;
       GammaSupport := IDDCX_FEATURE_IMPLEMENTATION_NONE;
       TransmissionType := IDDCX_TRANSMISSION_TYPE_WIRED_OTHER;
       StaticDesktopReencodeFrameCount := 0 |} in
  let calls := [IddCxAdapterInitAsync adapterCaps] in
  let status := InitAsync host in
  if negb (NT_SUCCESS status) then (status, DeviceContext, calls) else
  let DeviceContext :=
    {| Device := Device DeviceContext;
       Adapter := AdapterObject host;
       PowerState := PowerState DeviceContext;
       MonitorCount := MonitorCount DeviceContext |} in
  let calls := calls ++ [IddCxAdapterInitSetCallbacks (AdapterObject host)] in
  let status := InitSetCallbacks host in
  if negb (NT_SUCCESS status) then (status, DeviceContext, calls) else
  (status, DeviceContext, calls).

(** Ioctl.cpp: [InitializeIoctlInterface(Device)]; [queueCreate] is what
    [WdfIoQueueCreate] answers. *)
Definition InitializeIoctlInterface (queueCreate : NTSTATUS) (device : Z)
  : NTSTATUS * list FrameworkCall :=
  (queueCreate, [WdfIoQueueCreate device]).

(** What the framework and the host answer during one device add; [stale]
    is the context memory before it is zeroed. *)
Record DeviceHost := {
  DeviceCreate : NTSTATUS;
  DeviceObject : Z;
  stale : DEVICE_CONTEXT;
  adapterHost : AdapterHost;
  CreateDeviceInterface : NTSTATUS
}.

(** Driver.cpp: [ExpandScreenEvtDeviceAdd(Driver, DeviceInit)]; the context
    is [None] when no device object was created. *)
Definition ExpandScreenEvtDeviceAdd (host : DeviceHost)
  : NTSTATUS * option DEVICE_CONTEXT * list FrameworkCall :=
  let calls :=
    [WdfDeviceInitSetPnpPowerEventCallbacks; WdfDeviceInitSetIoType;
     WdfDeviceCreate] in
  let status := DeviceCreate host in
  if negb (NT_SUCCESS status) then (status, None, calls) else
  let device := DeviceObject host in
  let deviceContext := stale host in
  let deviceContext := zeroed in
  let deviceContext :=
    {| Device := device;
       Adapter := Adapter deviceContext;
       PowerState := PowerState deviceContext;
       MonitorCount := MonitorCount deviceContext |} in
  let '(status, deviceContext, adapterCalls) :=
    InitializeIddCxAdapter (adapterHost host) device deviceContext in
  let calls := calls ++ adapterCalls in
  if negb (NT_SUCCESS status) then (status, Some deviceContext, calls) else
  let calls := calls ++ [WdfDeviceCreateDeviceInterface device] in
  let status := CreateDeviceInterface host in
  if negb (NT_SUCCESS status) then (status, Some deviceContext, calls) else
  (status, Some deviceContext, calls).

(** Driver.cpp: [ExpandScreenEvtDeviceD0Entry(Device, PreviousState)].  The
    source stores [PowerDeviceD0], the WDM constant, whose value 1 is that of
    [WdfPowerDeviceD0]. *)
Definition ExpandScreenEvtDeviceD0Entry
    (PreviousState : WDF_POWER_DEVICE_STATE) (deviceContext : DEVICE_CONTEXT)
  : NTSTATUS * DEVICE_CONTEXT :=
  (STATUS_SUCCESS,
   {| Device := Device deviceContext;
      Adapter := Adapter deviceContext;
      PowerState := WdfPowerDeviceD0;
      MonitorCount := MonitorCount deviceContext |}).

(** Driver.cpp: [ExpandScreenEvtDeviceD0Exit(Device, TargetState)]. *)
Definition ExpandScreenEvtDeviceD0Exit
    (TargetState : WDF_POWER_DEVICE_STATE) (deviceContext : DEVICE_CONTEXT)
  : NTSTATUS * DEVICE_CONTEXT :=
  (STATUS_SUCCESS,
   {| Device := Device deviceContext;
      Adapter := Adapter deviceContext;
      PowerState := TargetState;
      MonitorCount := MonitorCount deviceContext |}).

(** Driver.cpp: [ExpandScreenEvtDeviceCleanup(Device)]. *)
Definition ExpandScreenEvtDeviceCleanup (deviceContext : DEVICE_CONTEXT)
  : DEVICE_CONTEXT :=
  if negb (Adapter deviceContext =? 0) then
    {| Device := Device deviceContext;
       Adapter := 0;
       PowerState := PowerState deviceContext;
       MonitorCount := MonitorCount deviceContext |}
  else deviceContext.

(** Driver.cpp: [DriverEntry(DriverObject, RegistryPath)]; [driverCreate]
    is what [WdfDriverCreate] answers. *)
Definition DriverEntry (driverCreate : NTSTATUS)
  : NTSTATUS * list FrameworkCall :=
  let calls := [WPP_INIT_TRACING; WdfDriverCreate] in
  let status := driverCreate in
  if negb (NT_SUCCESS status) then (status, calls ++ [WPP_CLEANUP]) else
  (status, calls).

(** Driver.cpp: [ExpandScreenEvtDriverCleanup(DriverObject)]. *)
Definition ExpandScreenEvtDriverCleanup : list FrameworkCall := [WPP_CLEANUP].

(** Adapter.cpp: [ExpandScreenEvtAdapterCommitModes(AdapterObject, pInArgs)]. *)
Definition ExpandScreenEvtAdapterCommitModes (PathCount : Z) : NTSTATUS :=
  STATUS_SUCCESS.

(** The power and cleanup callbacks a device sees after it was added. *)
Inductive DeviceEvent :=
| D0Entry (PreviousState : WDF_POWER_DEVICE_STATE)
| D0Exit (TargetState : WDF_POWER_DEVICE_STATE)
| DeviceCleanup.

Definition device_step (e : DeviceEvent) (ctx : DEVICE_CONTEXT)
  : DEVICE_CONTEXT :=
  match e with
  | D0Entry s => (ExpandScreenEvtDeviceD0Entry s ctx).2
  | D0Exit s => (ExpandScreenEvtDeviceD0Exit s ctx).2
  | DeviceCleanup => ExpandScreenEvtDeviceCleanup ctx
  end.

(** The whole life of the driver object: entry, then its cleanup callback,
    which the framework calls only for a driver object that was created. *)
Definition driver_life (driverCreate : NTSTATUS) : list FrameworkCall :=
  let '(status, calls) := DriverEntry driverCreate in
  if NT_SUCCESS status then calls ++ ExpandScreenEvtDriverCleanup else calls.

End Lifecycle.

(** ** More vocabulary for runs *)

(** A request with another input record. *)
Definition with_input (inp : Driver.EXPANDSCREEN_CREATE_MONITOR_INPUT)
    (req : Driver.WDFREQUEST) : Driver.WDFREQUEST :=
  {| Driver.RetrieveInputBuffer := Driver.RetrieveInputBuffer req;
     Driver.pInput := inp;
     Driver.RetrieveOutputBuffer := Driver.RetrieveOutputBuffer req;
     Driver.MonitorHostReplies := Driver.MonitorHostReplies req |}.

(** A create request that goes through. *)
Definition create_ok : Run.Event :=
  Run.IoDeviceControl request_ok Driver.IOCTL_EXPANDSCREEN_CREATE_MONITOR.

(** The outcome of a create request that returned [id]. *)
Definition created_with (id : Z) : Run.Outcome :=
  Run.Completed
    {| Driver.CompletionStatus := Win.STATUS_SUCCESS;
       Driver.bytesReturned := 8;
       Driver.pOutput :=
         Driver.CreateMonitorOutput
           {| Driver.out_MonitorId := id;
              Driver.out_Status := Win.STATUS_SUCCESS |} |}.

(** The status [CreateMonitor] returns for the host's three answers. *)
Definition first_failure (host : IddCx.MonitorHost) : Win.NTSTATUS :=
  if negb (Win.NT_SUCCESS (IddCx.IddCxMonitorCreate host))
  then IddCx.IddCxMonitorCreate host
  else if negb (Win.NT_SUCCESS (IddCx.IddCxMonitorSetCallbacks host))
  then IddCx.IddCxMonitorSetCallbacks host
  else if negb (Win.NT_SUCCESS (IddCx.IddCxMonitorArrival host))
  then IddCx.IddCxMonitorArrival host
  else Win.STATUS_SUCCESS.

(** The descriptor [CreateMonitor] generates: that of 1920 x 1080 on a
    zeroed buffer of [EDID_SIZE] bytes. *)
Definition default_descriptor (edid : list Z) : Prop :=
  Edid.GenerateEdid (Some (replicate Edid.EDID_SIZE 0)) 1920 1080
  = (Win.STATUS_SUCCESS, Some edid).

(** The host calls among the effects of a frame step, in order. *)
Definition host_calls (es : list SwapChain.Effect)
  : list SwapChain.BufferCall :=
  omap (fun e => match e with SwapChain.Call c => Some c | _ => None end) es.

(** * Proofs *)

(** ** Buffers *)
Section BufferLemmas.
Import Win.

Lemma length_store i v buf : length (store i v buf) = length buf.
Proof. apply length_insert. Qed.

Lemma length_RtlZeroMemory off n buf :
  length (RtlZeroMemory off n buf) = length buf.
Proof.
  unfold RtlZeroMemory. revert buf.
  induction (seq off n) as [|i l IH]; intros buf; simpl; [done|].
  by rewrite IH, length_store.
Qed.

Lemma length_copy_name name buf :
  length (Edid.copy_name name buf) = length buf.
Proof.
  unfold Edid.copy_name. revert buf.
  induction (seq 0 _) as [|i l IH]; intros buf; simpl; [done|].
  by rewrite IH, length_store.
Qed.

Lemma to_BYTE_range z : 0 <= to_BYTE z < 256.
Proof. unfold to_BYTE. apply Z.mod_pos_bound. lia. Qed.

Lemma to_BYTE_small z : 0 <= z < 256 -> to_BYTE z = z.
Proof. intros. unfold to_BYTE. apply Z.mod_small. lia. Qed.

Lemma byte_sum_snoc l x : byte_sum (l ++ [x]) = byte_sum l + x.
Proof.
  unfold byte_sum. induction l as [|y l IH]; simpl; [lia|].
  rewrite IH. lia.
Qed.

(** The checksum loop adds up the first 127 bytes modulo 256. *)
Lemma checksum_prefix buf (n : nat) :
  (n <= length buf)%nat ->
  foldl (fun checksum i => to_BYTE (checksum + load i buf)) 0 (seq 0 n)
  = to_BYTE (byte_sum (take n buf)).
Proof.
  induction n as [|n IH]; intros Hn.
  - reflexivity.
  - rewrite seq_S, foldl_app. simpl. rewrite IH by lia.
    destruct (lookup_lt_is_Some_2 buf n) as [x Hx]; [lia|].
    rewrite (take_S_r _ _ _ Hx), byte_sum_snoc.
    unfold load. rewrite Hx. simpl.
    unfold to_BYTE. apply Zplus_mod_idemp_l.
Qed.

Lemma checksum_loop_sum buf :
  (127 <= length buf)%nat ->
  Edid.checksum_loop buf = to_BYTE (byte_sum (take 127 buf)).
Proof. apply checksum_prefix. Qed.

(** Closing a buffer with its checksum byte makes the block sum to zero. *)
Lemma checksum_closes buf :
  (128 <= length buf)%nat ->
  let edid := store 127 (256 - Edid.checksum_loop buf) buf in
  let S := byte_sum (take 127 edid) in
  edid !! 127%nat = Some ((256 - S) mod 256) /\
  byte_sum (base_block edid) mod 256 = 0.
Proof.
  intros Hlen edid S.
  assert (Htake : take 127 edid = take 127 buf).
  { unfold edid, store. apply take_insert_ge. lia. }
  assert (H127 : edid !! 127%nat = Some ((256 - S) mod 256)).
  { unfold edid, store. rewrite list_lookup_insert_eq by lia.
    f_equal. unfold S. rewrite Htake, checksum_loop_sum by lia.
    unfold to_BYTE. change (2 ^ 8) with 256.
    rewrite Zminus_mod_idemp_r. reflexivity. }
  split; [exact H127|].
  unfold base_block. rewrite (take_S_r _ _ _ H127), byte_sum_snoc.
  fold S. rewrite Zplus_mod_idemp_r.
  replace (S + (256 - S)) with (1 * 256) by lia.
  apply Z_mod_mult.
Qed.

Lemma lookup_store_ne i j v buf : i <> j -> store i v buf !! j = buf !! j.
Proof. apply list_lookup_insert_ne. Qed.

Lemma lookup_store_eq i v buf :
  (i < length buf)%nat -> store i v buf !! i = Some (to_BYTE v).
Proof. apply list_lookup_insert_eq. Qed.

Lemma RtlZeroMemory_S off n buf :
  RtlZeroMemory off (S n) buf = store (off + n) 0 (RtlZeroMemory off n buf).
Proof. unfold RtlZeroMemory. by rewrite seq_S, foldl_app. Qed.

Lemma lookup_RtlZeroMemory_out off n buf i :
  (i < off \/ off + n <= i)%nat -> RtlZeroMemory off n buf !! i = buf !! i.
Proof.
  induction n as [|n IH]; intros Hi; [done|].
  rewrite RtlZeroMemory_S, lookup_store_ne by lia. apply IH. lia.
Qed.

Lemma lookup_RtlZeroMemory_in off n buf i :
  (off <= i < off + n)%nat -> (i < length buf)%nat ->
  RtlZeroMemory off n buf !! i = Some 0.
Proof.
  induction n as [|n IH]; intros Hi Hlen; [lia|].
  rewrite RtlZeroMemory_S.
  destruct (decide (i = off + n)%nat) as [->|Hne].
  - by rewrite lookup_store_eq by (rewrite length_RtlZeroMemory; lia).
  - rewrite lookup_store_ne by lia. apply IH; lia.
Qed.

(** Zeroing a whole buffer forgets what it held. *)
Lemma RtlZeroMemory_whole n buf :
  length buf = n -> RtlZeroMemory 0 n buf = replicate n 0.
Proof.
  intros Hlen. apply list_eq. intros i.
  destruct (decide (i < n)%nat) as [Hi|Hi].
  - rewrite lookup_RtlZeroMemory_in by lia. by rewrite lookup_replicate_2.
  - rewrite !lookup_ge_None_2; [done| |].
    + rewrite length_replicate. lia.
    + rewrite length_RtlZeroMemory. lia.
Qed.

Lemma lookup_copy_name_out name buf i :
  (i < 77 \/ 77 + Nat.min 13 (String.length name) <= i)%nat ->
  Edid.copy_name name buf !! i = buf !! i.
Proof.
  unfold Edid.copy_name. generalize (Nat.min 13 (String.length name)).
  intros n. induction n as [|n IH]; intros Hi; [done|].
  rewrite seq_S, foldl_app. simpl.
  rewrite lookup_store_ne by lia. apply IH. lia.
Qed.

End BufferLemmas.

(** ** The descriptor encoder *)
Section EdidProofs.
Import Win Edid.

Ltac buffer_length :=
  repeat first [ rewrite length_store
               | rewrite length_RtlZeroMemory
               | rewrite length_copy_name ].

(** C1. For every width and height and every non-null output buffer of
    [EDID_SIZE] bytes, [GenerateEdid] succeeds and byte 127 of the block it
    leaves equals (256 - S) mod 256, where S is the sum of bytes 0 to 126;
    equivalently the 128 bytes of the block sum to 0 modulo 256. *)
Theorem GenerateEdid_checksum (buf : list Z) (Width Height : Z) :
  length buf = EDID_SIZE ->
  exists edid,
    GenerateEdid (Some buf) Width Height = (STATUS_SUCCESS, Some edid) /\
    let S := byte_sum (take 127 edid) in
    edid !! 127%nat = Some ((256 - S) mod 256) /\
    byte_sum (base_block edid) mod 256 = 0.
Proof.
  intros Hlen. unfold GenerateEdid. cbv zeta.
  eexists. split; [reflexivity|].
  apply checksum_closes.
  buffer_length. rewrite Hlen. unfold EDID_SIZE. lia.
Qed.

Lemma GenerateEdid_checksum_witness :
  exists edid,
    GenerateEdid (Some (replicate 256 7)) 1920 1080
    = (STATUS_SUCCESS, Some edid) /\
    let S := byte_sum (take 127 edid) in
    edid !! 127%nat = Some ((256 - S) mod 256) /\
    byte_sum (base_block edid) mod 256 = 0.
Proof. apply (GenerateEdid_checksum (replicate 256 7) 1920 1080). reflexivity. Defined.

Ltac peel :=
  repeat first [ rewrite lookup_store_ne by lia
               | rewrite lookup_RtlZeroMemory_out by lia
               | rewrite lookup_copy_name_out by (simpl; lia) ].

Ltac here :=
  rewrite lookup_store_eq by (buffer_length; lia).

(** The encoder cannot fail on a buffer, and keeps its size. *)
Lemma GenerateEdid_succeeds buf Width Height :
  exists edid,
    GenerateEdid (Some buf) Width Height = (STATUS_SUCCESS, Some edid) /\
    length edid = length buf.
Proof.
  unfold GenerateEdid. cbv zeta. eexists. split; [reflexivity|].
  by buffer_length.
Qed.

(** What the buffer held before the call does not matter. *)
Lemma GenerateEdid_determined b1 b2 Width Height :
  length b1 = EDID_SIZE -> length b2 = EDID_SIZE ->
  GenerateEdid (Some b1) Width Height = GenerateEdid (Some b2) Width Height.
Proof.
  intros H1 H2. unfold GenerateEdid. cbv zeta.
  by rewrite (RtlZeroMemory_whole EDID_SIZE b1 H1),
             (RtlZeroMemory_whole EDID_SIZE b2 H2).
Qed.

(** The four computed bytes the claims are about, as the code stores them. *)
Lemma GenerateEdid_computed_bytes buf Width Height edid :
  length buf = EDID_SIZE ->
  GenerateEdid (Some buf) Width Height = (STATUS_SUCCESS, Some edid) ->
  let pixelClock := to_UINT (to_UINT (Width * Height) * 60) / 10000 in
  edid !! 21%nat = Some (to_BYTE (to_UINT (Width * 254) / 960 / 10)) /\
  edid !! 22%nat = Some (to_BYTE (to_UINT (Height * 254) / 960 / 10)) /\
  edid !! 54%nat = Some (to_BYTE (Z.land pixelClock 0xFF)) /\
  edid !! 55%nat = Some (to_BYTE (Z.land (Z.shiftr pixelClock 8) 0xFF)).
Proof.
  intros Hlen Heq pixelClock.
  unfold GenerateEdid in Heq. cbv zeta in Heq.
  change (String.length displayName) with 12%nat in Heq.
  injection Heq as <-. unfold EDID_SIZE in Hlen. fold pixelClock.
  repeat split; peel; here; reflexivity.
Qed.

(** Bytes 128 to 255 of the buffer stay zero: every store after the first
    [RtlZeroMemory] is below 128. *)
Lemma GenerateEdid_tail buf Width Height edid (i : nat) :
  length buf = EDID_SIZE ->
  GenerateEdid (Some buf) Width Height = (STATUS_SUCCESS, Some edid) ->
  (128 <= i < 256)%nat -> edid !! i = Some 0.
Proof.
  intros Hlen Heq Hi.
  unfold GenerateEdid in Heq. cbv zeta in Heq.
  change (String.length displayName) with 12%nat in Heq.
  injection Heq as <-. unfold EDID_SIZE in *.
  peel. apply lookup_RtlZeroMemory_in; lia.
Qed.

(** C4. The descriptor generated for 1920 x 1080 has the little-endian
    16-bit field at bytes 54-55 equal to 12441 = 1920 * 1080 * 60 / 10000,
    byte 21 equal to 50 and byte 22 equal to 28. *)
Theorem GenerateEdid_1920x1080 (buf : list Z) :
  length buf = EDID_SIZE ->
  exists edid,
    GenerateEdid (Some buf) 1920 1080 = (STATUS_SUCCESS, Some edid) /\
    le16 edid 54 = 12441 /\
    1920 * 1080 * 60 / 10000 = 12441 /\
    edid !! 21%nat = Some 50 /\
    edid !! 22%nat = Some 28.
Proof.
  intros Hlen.
  destruct (GenerateEdid_succeeds buf 1920 1080) as (edid & Heq & _).
  exists edid. split; [exact Heq|].
  destruct (GenerateEdid_computed_bytes _ _ _ _ Hlen Heq)
    as (H21 & H22 & H54 & H55).
  unfold le16, load. rewrite H21, H22, H54, H55.
  repeat split; reflexivity.
Qed.

Lemma GenerateEdid_1920x1080_witness :
  exists edid,
    GenerateEdid (Some (replicate 256 0)) 1920 1080
    = (STATUS_SUCCESS, Some edid) /\
    le16 edid 54 = 12441 /\
    1920 * 1080 * 60 / 10000 = 12441 /\
    edid !! 21%nat = Some 50 /\
    edid !! 22%nat = Some 28.
Proof. apply (GenerateEdid_1920x1080 (replicate 256 0)). reflexivity. Defined.

(** [round_div] is a nearest integer: it is within one half of the quotient. *)
Lemma round_div_nearest a b :
  0 < b -> 2 * Z.abs (round_div a b * b - a) <= b.
Proof.
  intros Hb. unfold round_div.
  pose proof (Z.div_mod (2 * a + b) (2 * b) ltac:(lia)) as Hdm.
  pose proof (Z.mod_pos_bound (2 * a + b) (2 * b) ltac:(lia)) as Hm.
  lia.
Qed.

(** C5, as stated, fails: for 1920 x 1080 the code stores 50 and 28, while
    1920 * 254 / 9600 = 50.8 and 1080 * 254 / 9600 = 28.575 round to 51
    and 29. *)
Lemma physical_size_not_rounded :
  exists edid,
    GenerateEdid (Some (replicate 256 0)) 1920 1080
    = (STATUS_SUCCESS, Some edid) /\
    edid !! 21%nat = Some 50 /\ round_div (1920 * 254) 9600 = 51 /\
    edid !! 22%nat = Some 28 /\ round_div (1080 * 254) 9600 = 29 /\
    edid !! 21%nat <> Some (round_div (1920 * 254) 9600) /\
    edid !! 22%nat <> Some (round_div (1080 * 254) 9600).
Proof.
  destruct (GenerateEdid_succeeds (replicate 256 0) 1920 1080)
    as (edid & Heq & _).
  destruct (GenerateEdid_computed_bytes (replicate 256 0) _ _ _ eq_refl Heq)
    as (H21 & H22 & _).
  exists edid. rewrite H21, H22.
  split; [exact Heq|].
  repeat split; try reflexivity; intros [=].
Qed.

(** C5, amended. Byte 21 is width * 254 / 9600 and byte 22 is
    height * 254 / 9600 rounded down, the product taken in 32-bit unsigned
    arithmetic and the quotient cut to its low eight bits; for sizes up to
    9675 pixels (below 256 cm) they are exactly the quotients rounded down. *)
Theorem GenerateEdid_physical_size (buf : list Z) (Width Height : Z) :
  length buf = EDID_SIZE ->
  exists edid,
    GenerateEdid (Some buf) Width Height = (STATUS_SUCCESS, Some edid) /\
    edid !! 21%nat = Some ((to_UINT (Width * 254) / 9600) mod 256) /\
    edid !! 22%nat = Some ((to_UINT (Height * 254) / 9600) mod 256) /\
    (0 <= Width <= 9675 -> edid !! 21%nat = Some (Width * 254 / 9600)) /\
    (0 <= Height <= 9675 -> edid !! 22%nat = Some (Height * 254 / 9600)).
Proof.
  intros Hlen.
  destruct (GenerateEdid_succeeds buf Width Height) as (edid & Heq & _).
  exists edid. split; [exact Heq|].
  destruct (GenerateEdid_computed_bytes _ _ _ _ Hlen Heq) as (H21 & H22 & _).
  rewrite H21, H22. unfold to_BYTE.
  rewrite !Z.div_div by lia. change (960 * 10) with 9600.
  change (2 ^ 8) with 256.
  assert (Hsmall : forall x, 0 <= x <= 9675 ->
            (to_UINT (x * 254) / 9600) mod 256 = x * 254 / 9600).
  { intros x Hx. unfold to_UINT.
    rewrite (Z.mod_small (x * 254)) by lia.
    apply Z.mod_small. split.
    - apply Z.div_pos; lia.
    - apply Z.div_lt_upper_bound; lia. }
  repeat split; intros; f_equal; by apply Hsmall.
Qed.

Lemma GenerateEdid_physical_size_witness :
  exists edid,
    GenerateEdid (Some (replicate 256 0)) 1920 1080
    = (STATUS_SUCCESS, Some edid) /\
    edid !! 21%nat = Some (1920 * 254 / 9600) /\
    edid !! 22%nat = Some (1080 * 254 / 9600).
Proof.
  destruct (GenerateEdid_physical_size (replicate 256 0) 1920 1080)
    as (edid & Heq & _ & _ & H21 & H22); [reflexivity|].
  exists edid. split; [exact Heq|].
  split; [apply H21; lia | apply H22; lia].
Defined.

End EdidProofs.

(** ** The mode callbacks *)
Section ModeProofs.
Import Win Modes IddCx MonitorModes.

(** The fill loop of both callbacks: entry [i] is rewritten exactly when
    [i] is below the count. *)
Lemma lookup_fill_loop {A} (f : nat -> A -> A) (buf : list A) (k i : nat) :
  foldl (fun b j => alter (f j) j b) buf (seq 0 k) !! i
  = if decide (i < k)%nat then f i <$> buf !! i else buf !! i.
Proof.
  induction k as [|k IH].
  - simpl. destruct (decide (i < 0)%nat); [lia|done].
  - rewrite seq_S, foldl_app. simpl. rewrite list_lookup_alter.
    destruct (decide (k = i)) as [<-|Hne].
    + rewrite IH. destruct (decide (k < k)%nat); [lia|].
      destruct (decide (k < S k)%nat); [done|lia].
    + rewrite IH.
      destruct (decide (i < k)%nat), (decide (i < S k)%nat); (done || lia).
Qed.

(** No product of the catalog leaves its integer type. *)
Lemma catalog_exact (i : nat) :
  (i < 5)%nat ->
  exists m, g_SupportedModes !! i = Some m /\ mode_at i = m /\
    to_UINT (RefreshRate m * Height m) = RefreshRate m * Height m /\
    to_UINT64 (to_UINT64 (Width m * Height m) * RefreshRate m)
    = Width m * Height m * RefreshRate m.
Proof.
  intros Hi.
  destruct i as [|[|[|[|[|i]]]]]; try lia;
    eexists; (split; [reflexivity|]); repeat split; reflexivity.
Qed.

(** C3. For every requested count n, with buffers of n entries, both
    callbacks report min(n, catalog size) entries, never more than the
    catalog holds; entry i below that count describes catalog entry i in
    both, with identical signal fields: vertical sync = refreshRate,
    horizontal sync = refreshRate * height, pixel rate = width * height *
    refreshRate, progressive scan; entries from that count on are left as
    they were. *)
Theorem mode_callbacks_agree (n : Z)
    (bufM : list IDDCX_MONITOR_MODE) (bufT : list IDDCX_TARGET_MODE) :
  Z.of_nat (length bufM) = n -> Z.of_nat (length bufT) = n ->
  let k := Z.min n SUPPORTED_MODE_COUNT in
  exists modesM modesT,
    ExpandScreenEvtMonitorGetDefaultModes
      {| DefaultMonitorModeBufferInputCount := n;
         pDefaultMonitorModes := bufM |}
    = (STATUS_SUCCESS,
       {| DefaultMonitorModeBufferOutputCount := k;
          PreferredMonitorModeIdx := 0 |}, modesM) /\
    ExpandScreenEvtMonitorQueryTargetModes
      {| TargetModeBufferInputCount := n; pTargetModes := bufT |}
    = (STATUS_SUCCESS, {| TargetModeBufferOutputCount := k |}, modesT) /\
    k <= SUPPORTED_MODE_COUNT /\
    (forall i : nat, Z.of_nat i < k ->
       exists m mm tm,
         g_SupportedModes !! i = Some m /\
         modesM !! i = Some mm /\ modesT !! i = Some tm /\
         MonitorVideoSignalInfo mm = TargetVideoSignalInfo tm /\
         ActiveSize (MonitorVideoSignalInfo mm)
         = {| cx := Width m; cy := Height m |} /\
         VSyncFreq (MonitorVideoSignalInfo mm)
         = {| Numerator := RefreshRate m; Denominator := 1 |} /\
         HSyncFreq (MonitorVideoSignalInfo mm)
         = {| Numerator := RefreshRate m * Height m; Denominator := 1 |} /\
         PixelRate (MonitorVideoSignalInfo mm)
         = Width m * Height m * RefreshRate m /\
         ScanLineOrdering (MonitorVideoSignalInfo mm)
         = D3DDDI_VSSLO_PROGRESSIVE) /\
    (forall i : nat, k <= Z.of_nat i ->
       modesM !! i = bufM !! i /\ modesT !! i = bufT !! i).
Proof.
  intros HM HT k.
  unfold ExpandScreenEvtMonitorGetDefaultModes,
         ExpandScreenEvtMonitorQueryTargetModes. simpl. fold k.
  eexists _, _. split; [reflexivity|]. split; [reflexivity|].
  assert (Hk : k <= 5) by (unfold k; change SUPPORTED_MODE_COUNT with 5; lia).
  split; [exact Hk|]. split.
  - intros i Hi.
    destruct (catalog_exact i ltac:(lia)) as (m & Hm & Hat & Hh & Hp).
    destruct (lookup_lt_is_Some_2 bufM i) as [mm0 Hmm0]; [unfold k in *; lia|].
    destruct (lookup_lt_is_Some_2 bufT i) as [tm0 Htm0]; [unfold k in *; lia|].
    exists m, (fill_monitor_mode i mm0), (fill_target_mode i tm0).
    rewrite !lookup_fill_loop, Hmm0, Htm0.
    destruct (decide (i < Z.to_nat k)%nat); [|lia].
    split; [exact Hm|]. split; [reflexivity|]. split; [reflexivity|].
    unfold fill_monitor_mode, fill_target_mode. simpl.
    rewrite Hat, Hh, Hp. repeat split; reflexivity.
  - intros i Hi. rewrite !lookup_fill_loop.
    destruct (decide (i < Z.to_nat k)%nat); [lia|done].
Qed.

Lemma mode_callbacks_agree_witness :
  exists modesM modesT,
    ExpandScreenEvtMonitorGetDefaultModes
      {| DefaultMonitorModeBufferInputCount := 3;
         pDefaultMonitorModes := replicate 3 blank_monitor_mode |}
    = (STATUS_SUCCESS,
       {| DefaultMonitorModeBufferOutputCount := 3;
          PreferredMonitorModeIdx := 0 |}, modesM) /\
    ExpandScreenEvtMonitorQueryTargetModes
      {| TargetModeBufferInputCount := 3;
         pTargetModes := replicate 3 blank_target_mode |}
    = (STATUS_SUCCESS, {| TargetModeBufferOutputCount := 3 |}, modesT) /\
    exists mm tm,
      modesM !! 2%nat = Some mm /\ modesT !! 2%nat = Some tm /\
      MonitorVideoSignalInfo mm = TargetVideoSignalInfo tm /\
      PixelRate (MonitorVideoSignalInfo mm) = 2560 * 1600 * 60.
Proof.
  destruct (mode_callbacks_agree 3 (replicate 3 blank_monitor_mode)
              (replicate 3 blank_target_mode) eq_refl eq_refl)
    as (modesM & modesT & HM & HT & _ & Hin & _).
  exists modesM, modesT. split; [exact HM|]. split; [exact HT|].
  destruct (Hin 2%nat ltac:(reflexivity))
    as (m & mm & tm & Hm & Hmm & Htm & Heq & _ & _ & _ & Hp & _).
  exists mm, tm. injection Hm as <-. auto.
Defined.

End ModeProofs.

(** ** Integer types *)
Section IntegerLemmas.
Import Win.

Lemma to_LONG_idem x : to_LONG (to_LONG x + 1) = to_LONG (x + 1).
Proof.
  unfold to_LONG. f_equal.
  replace ((x + 2 ^ 31) mod 2 ^ 32 - 2 ^ 31 + 1 + 2 ^ 31)
    with ((x + 2 ^ 31) mod 2 ^ 32 + 1) by lia.
  rewrite Zplus_mod_idemp_l. f_equal. lia.
Qed.

Lemma to_LONG_add x y : to_LONG (to_LONG x + y) = to_LONG (x + y).
Proof.
  unfold to_LONG. f_equal.
  replace ((x + 2 ^ 31) mod 2 ^ 32 - 2 ^ 31 + y + 2 ^ 31)
    with ((x + 2 ^ 31) mod 2 ^ 32 + y) by lia.
  rewrite Zplus_mod_idemp_l. f_equal. lia.
Qed.

Lemma to_UINT_to_LONG x : to_UINT (to_LONG x) = to_UINT x.
Proof.
  unfold to_UINT, to_LONG.
  rewrite Zminus_mod_idemp_l. f_equal. lia.
Qed.

Lemma to_UINT_LONG_add x y : to_UINT (to_LONG x + y) = to_UINT (x + y).
Proof. by rewrite <- to_UINT_to_LONG, to_LONG_add, to_UINT_to_LONG. Qed.

Lemma to_UINT_small x : 0 <= x < 2 ^ 32 -> to_UINT x = x.
Proof. intros. unfold to_UINT. by apply Z.mod_small. Qed.

Lemma to_LONG_small x : - 2 ^ 31 <= x < 2 ^ 31 -> to_LONG x = x.
Proof. intros. unfold to_LONG. rewrite Z.mod_small; lia. Qed.

Lemma InterlockedIncrement_coupled c n :
  c = to_LONG n -> InterlockedIncrement c = to_LONG (n + 1).
Proof. intros ->. unfold InterlockedIncrement. apply to_LONG_idem. Qed.

Lemma StronglySorted_lt_NoDup (l : list Z) : StronglySorted Z.lt l -> NoDup l.
Proof.
  induction 1 as [|x l Hs IH Hall]; constructor; [|exact IH].
  intros Hin. rewrite Forall_forall in Hall. specialize (Hall x Hin). lia.
Qed.

End IntegerLemmas.

(** ** Ids drawn from the counter *)
Section DrawnLemmas.
Import Win.

Lemma drawn_nil lo hi : drawn lo hi [].
Proof. exists []. split; [done|]. split; constructor. Qed.

Lemma drawn_one lo hi k : lo < k <= hi -> drawn lo hi [to_UINT k].
Proof.
  intros Hk. exists [k]. split; [done|]. split.
  - repeat constructor.
  - constructor; [exact Hk|constructor].
Qed.

Lemma drawn_app lo mid hi l1 l2 :
  lo <= mid <= hi -> drawn lo mid l1 -> drawn mid hi l2 ->
  drawn lo hi (l1 ++ l2).
Proof.
  intros Hm (k1 & -> & Hs1 & Hr1) (k2 & -> & Hs2 & Hr2).
  exists (k1 ++ k2). rewrite fmap_app. split; [done|].
  rewrite Forall_forall in Hr1, Hr2. split.
  - apply StronglySorted_app_2; [|done..].
    intros x1 x2 H1 H2. specialize (Hr1 _ H1). specialize (Hr2 _ H2). lia.
  - apply Forall_app. split; apply Forall_forall; intros x Hx.
    + specialize (Hr1 _ Hx). lia.
    + specialize (Hr2 _ Hx). lia.
Qed.

(** Before the counter wraps, the ids are the increment numbers themselves. *)
Lemma drawn_exact lo hi l :
  0 <= lo -> hi < 2 ^ 32 -> drawn lo hi l ->
  StronglySorted Z.lt l /\ Forall (fun x => lo < x <= hi) l.
Proof.
  intros Hlo Hhi (ks & -> & Hs & Hr).
  assert (Hid : to_UINT <$> ks = ks).
  { clear Hs. induction Hr as [|k ks Hk _ IH]; [done|].
    rewrite fmap_cons, IH, to_UINT_small by lia. done. }
  by rewrite Hid.
Qed.

End DrawnLemmas.

(** ** Monitor creation *)
Section CreateProofs.
Import Win IddCx Driver.

(** The descriptor [CreateMonitor] builds. *)
Lemma default_edid :
  exists edid,
    Edid.GenerateEdid (Some (replicate Edid.EDID_SIZE 0)) 1920 1080
    = (STATUS_SUCCESS, Some edid) /\
    length edid = 256%nat /\
    (forall i : nat, (128 <= i < 256)%nat -> edid !! i = Some 0).
Proof.
  destruct (GenerateEdid_succeeds (replicate Edid.EDID_SIZE 0) 1920 1080)
    as (edid & Heq & Hlen).
  exists edid. split; [exact Heq|]. split; [exact Hlen|].
  intros i Hi.
  exact (GenerateEdid_tail (replicate Edid.EDID_SIZE 0) 1920 1080 edid i
           (length_replicate _ _) Heq Hi).
Qed.

(** [CreateMonitor], effect by effect. *)
Lemma CreateMonitor_spec host w status w' :
  CreateMonitor host w = (status, w') ->
  let id := to_UINT (InterlockedIncrement (g_MonitorIdCounter w)) in
  let ctx := {| MonitorId := id; IsActive := false; SwapChain := None |} in
  g_MonitorIdCounter w' = InterlockedIncrement (g_MonitorIdCounter w) /\
  Increments w' = Increments w + 1 /\
  MonitorCount w' = MonitorCount w /\
  (exists info,
     MonitorCreateCalls w' = MonitorCreateCalls w ++ [info] /\
     ConnectorIndex info = id /\
     DataSize (MonitorDescription info) = 256 /\
     Edid.GenerateEdid (Some (replicate Edid.EDID_SIZE 0)) 1920 1080
     = (STATUS_SUCCESS, Some (pData (MonitorDescription info)))) /\
  (Monitors w' = Monitors w \/ Monitors w' = Monitors w ++ [ctx]) /\
  (NT_SUCCESS status = true ->
   status = STATUS_SUCCESS /\ Monitors w' = Monitors w ++ [ctx]).
Proof.
  destruct default_edid as (edid & Heq & _).
  unfold CreateMonitor, next_id. rewrite Heq. simpl.
  destruct (NT_SUCCESS (IddCxMonitorCreate host)) eqn:H1; simpl;
    [destruct (NT_SUCCESS (IddCxMonitorSetCallbacks host)) eqn:H2; simpl;
     [destruct (NT_SUCCESS (IddCxMonitorArrival host)) eqn:H3; simpl|]|];
    intros [= <- <-]; simpl;
    (split; [reflexivity|]); (split; [reflexivity|]); (split; [reflexivity|]);
    (split; [eexists; repeat split; try reflexivity; exact Heq|]);
    (split; [auto|]); intros Hs; try congruence; auto.
Qed.

(** C2, on the code: the description [CreateMonitor] hands to
    [IddCxMonitorCreate] is [EDID_SIZE] = 256 bytes long, the 128-byte block
    of [GenerateEdid] for 1920 x 1080 followed by 128 zero bytes; it is not
    the 128-byte block alone. *)
Theorem CreateMonitor_submits_256_bytes (host : MonitorHost) (w : World) :
  exists info,
    MonitorCreateCalls (CreateMonitor host w).2
    = MonitorCreateCalls w ++ [info] /\
    let data := pData (MonitorDescription info) in
    Edid.GenerateEdid (Some (replicate Edid.EDID_SIZE 0)) 1920 1080
    = (STATUS_SUCCESS, Some data) /\
    DataSize (MonitorDescription info) = 256 /\
    length data = 256%nat /\
    (forall i : nat, (128 <= i < 256)%nat -> data !! i = Some 0) /\
    data <> base_block data.
Proof.
  destruct (CreateMonitor host w) as [status w'] eqn:HC.
  destruct (CreateMonitor_spec _ _ _ _ HC)
    as (_ & _ & _ & (info & Hcalls & _ & Hsize & Hgen) & _).
  destruct default_edid as (edid & Heq & Hlen & Hzero).
  rewrite Heq in Hgen. injection Hgen as Hdata.
  exists info. simpl. rewrite <- Hdata.
  repeat split; auto.
  intros Habs. apply (f_equal length) in Habs.
  unfold base_block in Habs. rewrite length_take, Hlen in Habs. lia.
Qed.

(** [CreateMonitor] succeeds exactly when the host lets its three calls
    through. *)
Lemma CreateMonitor_status host w :
  NT_SUCCESS (CreateMonitor host w).1
  = NT_SUCCESS (IddCxMonitorCreate host)
    && NT_SUCCESS (IddCxMonitorSetCallbacks host)
    && NT_SUCCESS (IddCxMonitorArrival host).
Proof.
  destruct default_edid as (edid & Heq & _).
  unfold CreateMonitor, next_id. rewrite Heq. simpl.
  destruct (NT_SUCCESS (IddCxMonitorCreate host)) eqn:H1; simpl; [|done].
  destruct (NT_SUCCESS (IddCxMonitorSetCallbacks host)) eqn:H2; simpl; [|done].
  destruct (NT_SUCCESS (IddCxMonitorArrival host)) eqn:H3; simpl; done.
Qed.

Lemma CreateMonitor_host_ok w :
  exists w1, CreateMonitor host_ok w = (STATUS_SUCCESS, w1).
Proof.
  pose proof (CreateMonitor_status host_ok w) as Hs.
  destruct (CreateMonitor host_ok w) as [status w1] eqn:HC.
  destruct (CreateMonitor_spec _ _ _ _ HC) as (_ & _ & _ & _ & _ & Hok).
  destruct (Hok Hs) as [-> _]. by exists w1.
Qed.

End CreateProofs.

(** ** Runs *)
Section RunProofs.
Import Win IddCx Driver Run.

Lemma summary_idle e w o :
  created e o = false -> destroyed e o = false -> step_summary e w o w.
Proof.
  intros Hc Hd. unfold step_summary. rewrite Hc.
  split; [lia|]. split; [auto|]. split; [|auto].
  exists [], []. rewrite !app_nil_r. repeat split; apply drawn_nil.
Qed.

Lemma CreateMonitor_drawn host w status w1 :
  CreateMonitor host w = (status, w1) ->
  Increments w1 = Increments w + 1 /\
  (coupled w -> coupled w1) /\
  MonitorCount w1 = MonitorCount w /\
  (NT_SUCCESS status = true -> status = STATUS_SUCCESS) /\
  exists newc newm,
    MonitorCreateCalls w1 = MonitorCreateCalls w ++ newc /\
    Monitors w1 = Monitors w ++ newm /\
    (coupled w -> forall hi, Increments w + 1 <= hi ->
     drawn (Increments w) hi (ConnectorIndex <$> newc) /\
     drawn (Increments w) hi (MonitorId <$> newm)).
Proof.
  intros HC.
  destruct (CreateMonitor_spec _ _ _ _ HC)
    as (Hc & Hi & Hmc & (info & Hcalls & Hci & _) & Hmon & Hok).
  split; [exact Hi|]. split.
  { unfold coupled. intros Hw. rewrite Hc, Hi.
    by apply InterlockedIncrement_coupled. }
  split; [exact Hmc|]. split; [intros Hs; by apply Hok|].
  assert (Hid : coupled w ->
    to_UINT (InterlockedIncrement (g_MonitorIdCounter w))
    = to_UINT (Increments w + 1)).
  { intros Hw. rewrite (InterlockedIncrement_coupled _ _ Hw).
    apply to_UINT_to_LONG. }
  destruct Hmon as [Hmon|Hmon].
  - exists [info], []. rewrite app_nil_r. repeat split; try done.
    + simpl. rewrite Hci, Hid by done. apply drawn_one. lia.
    + apply drawn_nil.
  - eexists [info], [_]. repeat split; try done.
    + simpl. rewrite Hci, Hid by done. apply drawn_one. lia.
    + simpl. rewrite Hid by done. apply drawn_one. lia.
Qed.

Lemma AdapterInitFinished_summary st host w o w' :
  step (AdapterInitFinished st host) w = (o, w') ->
  step_summary (AdapterInitFinished st host) w o w'.
Proof.
  unfold step, ExpandScreenEvtAdapterInitFinished.
  destruct (NT_SUCCESS st) eqn:Hst; simpl.
  - destruct (CreateMonitor host w) as [status w1] eqn:HC.
    destruct (CreateMonitor_drawn _ _ _ _ HC)
      as (Hi & Hcp & Hmc & Hok & newc & newm & Hcalls & Hmon & Hdr).
    destruct (NT_SUCCESS status) eqn:Hs; simpl; intros [= <- <-];
      unfold step_summary; simpl; rewrite ?Hs, Hi, Hmc.
    + split; [lia|]. split; [exact Hcp|]. split; [|done].
      exists newc, newm. repeat split; try done; apply Hdr; (done || lia).
    + split; [lia|]. split; [exact Hcp|]. split; [|done].
      exists newc, newm. repeat split; try done; apply Hdr; (done || lia).
  - intros [= <- <-]. apply summary_idle; simpl; by rewrite ?Hst.
Qed.

(** A create request whose buffers are there, step by step. *)
Lemma create_request_spec req w c w' :
  ExpandScreenEvtIoDeviceControl req IOCTL_EXPANDSCREEN_CREATE_MONITOR w
  = (c, w') ->
  NT_SUCCESS (RetrieveInputBuffer req) = true ->
  NT_SUCCESS (RetrieveOutputBuffer req) = true ->
  exists status w1,
    CreateMonitor (MonitorHostReplies req) w = (status, w1) /\
    if NT_SUCCESS status then
      w' = (next_id (count_monitor w1)).2 /\
      c = {| CompletionStatus := STATUS_SUCCESS; bytesReturned := 8;
             pOutput := CreateMonitorOutput
               {| out_MonitorId :=
                    to_UINT (InterlockedIncrement (g_MonitorIdCounter w1));
                  out_Status := STATUS_SUCCESS |} |}
    else
      w' = w1 /\
      c = {| CompletionStatus := STATUS_SUCCESS; bytesReturned := 0;
             pOutput := CreateMonitorOutput
               {| out_MonitorId := 0; out_Status := status |} |}.
Proof.
  unfold ExpandScreenEvtIoDeviceControl.
  rewrite Z.eqb_refl. intros Hrun Hin Hout. rewrite Hin, Hout in Hrun.
  simpl in Hrun.
  destruct (CreateMonitor (MonitorHostReplies req) w) as [status w1].
  exists status, w1. split; [done|].
  destruct (NT_SUCCESS status); injection Hrun as <- <-; done.
Qed.

Lemma IoDeviceControl_summary req code w o w' :
  step (IoDeviceControl req code) w = (o, w') ->
  step_summary (IoDeviceControl req code) w o w'.
Proof.
  unfold step.
  destruct (ExpandScreenEvtIoDeviceControl req code w) as [c w2] eqn:HI.
  intros [= <- <-].
  destruct (code =? IOCTL_EXPANDSCREEN_CREATE_MONITOR) eqn:Hcreate.
  - apply Z.eqb_eq in Hcreate. subst code.
    destruct (NT_SUCCESS (RetrieveInputBuffer req)) eqn:Hin;
      [destruct (NT_SUCCESS (RetrieveOutputBuffer req)) eqn:Hout|].
    + destruct (create_request_spec _ _ _ _ HI Hin Hout)
        as (status & w1 & HC & Hres).
      destruct (CreateMonitor_drawn _ _ _ _ HC)
        as (Hi & Hcp & Hmc & Hok & newc & newm & Hcalls & Hmon & Hdr).
      destruct (NT_SUCCESS status) eqn:Hs; destruct Hres as [-> ->];
        unfold step_summary; simpl; rewrite ?Hs, Hi, Hmc.
      * split; [lia|]. split.
        { unfold coupled. simpl. intros Hw.
          apply InterlockedIncrement_coupled. rewrite <- Hi. by apply Hcp. }
        split; [|done]. exists newc, newm.
        repeat split; try done; apply Hdr; (done || lia).
      * split; [lia|]. split; [exact Hcp|]. split; [|done].
        exists newc, newm. repeat split; try done; apply Hdr; (done || lia).
    + unfold ExpandScreenEvtIoDeviceControl in HI.
      rewrite Z.eqb_refl, Hin, Hout in HI. simpl in HI.
      injection HI as <- <-. by apply summary_idle.
    + unfold ExpandScreenEvtIoDeviceControl in HI.
      rewrite Z.eqb_refl, Hin in HI. simpl in HI.
      injection HI as <- <-. by apply summary_idle.
  - unfold ExpandScreenEvtIoDeviceControl in HI. rewrite Hcreate in HI.
    destruct (code =? IOCTL_EXPANDSCREEN_DESTROY_MONITOR) eqn:Hdestroy.
    { injection HI as <- <-. apply summary_idle; simpl; [done|].
      by rewrite Hdestroy. }
    destruct (code =? IOCTL_EXPANDSCREEN_GET_ADAPTER_INFO) eqn:Hinfo.
    { destruct (NT_SUCCESS (RetrieveOutputBuffer req)); simpl in HI;
        injection HI as <- <-; apply summary_idle; simpl;
        by rewrite ?Hdestroy. }
    injection HI as <- <-. apply summary_idle; simpl; by rewrite ?Hdestroy.
Qed.

Lemma step_summarised e w o w' : step e w = (o, w') -> step_summary e w o w'.
Proof.
  destruct e; [apply AdapterInitFinished_summary|apply IoDeviceControl_summary].
Qed.

Lemma count_cons p e es o os :
  count p (e :: es) (o :: os) = (if p e o then 1 else 0) + count p es os.
Proof.
  unfold count. simpl zip. rewrite filter_cons. simpl fst. simpl snd.
  destruct (p e o); case_decide; try done; simpl length; lia.
Qed.

Lemma run_cons e es w os w' :
  run (e :: es) w = (os, w') ->
  exists o w1 os1, step e w = (o, w1) /\ run es w1 = (os1, w') /\ os = o :: os1.
Proof.
  simpl. destruct (step e w) as [o w1].
  destruct (run es w1) as [os1 w2] eqn:Hrest.
  intros [= <- <-]. by exists o, w1, os1.
Qed.

Lemma run_cons_eq e es w o w1 os w' :
  step e w = (o, w1) -> run es w1 = (os, w') ->
  run (e :: es) w = (o :: os, w').
Proof. intros Hs Hr. simpl. by rewrite Hs, Hr. Qed.

(** What a run can change. *)
Lemma run_summary es : forall w os w',
  run es w = (os, w') ->
  length os = length es /\
  Increments w <= Increments w' /\
  (coupled w -> coupled w') /\
  (exists newc newm,
     MonitorCreateCalls w' = MonitorCreateCalls w ++ newc /\
     Monitors w' = Monitors w ++ newm /\
     (coupled w ->
      drawn (Increments w) (Increments w') (ConnectorIndex <$> newc) /\
      drawn (Increments w) (Increments w') (MonitorId <$> newm))) /\
  (forall b, MonitorCount w = to_LONG b ->
             MonitorCount w' = to_LONG (b + count created es os)) /\
  count destroyed es os = 0.
Proof.
  induction es as [|e es IH]; intros w os w' Hrun.
  - injection Hrun as <- <-.
    split; [done|]. split; [lia|]. split; [done|]. split.
    { exists [], []. rewrite !app_nil_r. repeat split; apply drawn_nil. }
    split; [|done]. intros b Hb. rewrite Hb. f_equal.
    unfold count. simpl. lia.
  - destruct (run_cons _ _ _ _ _ Hrun) as (o & w1 & os1 & Hstep & Hrest & ->).
    destruct (step_summarised _ _ _ _ Hstep)
      as (Hi1 & Hcp1 & (c1 & m1 & Hc1 & Hm1 & Hd1) & Hmc1 & Hds1).
    destruct (IH _ _ _ Hrest)
      as (Hlen & Hi2 & Hcp2 & (c2 & m2 & Hc2 & Hm2 & Hd2) & Hmc2 & Hds2).
    split; [simpl; by rewrite Hlen|]. split; [lia|].
    split; [auto|]. split.
    { exists (c1 ++ c2), (m1 ++ m2).
      rewrite Hc2, Hc1, Hm2, Hm1, !app_assoc.
      split; [done|]. split; [done|]. intros Hw.
      destruct (Hd1 Hw) as [Hdc1 Hdm1].
      destruct (Hd2 (Hcp1 Hw)) as [Hdc2 Hdm2].
      rewrite !fmap_app.
      split; eapply drawn_app; try eassumption; lia. }
    split.
    + intros b Hb. rewrite count_cons.
      destruct (created e o).
      * rewrite (Hmc2 (b + 1)); [f_equal; lia|].
        rewrite Hmc1, Hb. apply to_LONG_idem.
      * rewrite (Hmc2 b); [f_equal; lia|]. by rewrite Hmc1.
    + rewrite count_cons, Hds1, Hds2. done.
Qed.

(** One successful init-finished callback. *)
Lemma step_boot w :
  coupled w ->
  exists w',
    step boot w = (Returned STATUS_SUCCESS, w') /\
    coupled w' /\
    Increments w' = Increments w + 1 /\
    monitor_ids w' = monitor_ids w ++ [to_UINT (Increments w + 1)] /\
    MonitorId <$> Monitors w'
    = (MonitorId <$> Monitors w) ++ [to_UINT (Increments w + 1)].
Proof.
  intros Hw. unfold step, boot, ExpandScreenEvtAdapterInitFinished.
  change (NT_SUCCESS STATUS_SUCCESS) with true. cbv iota beta. simpl negb.
  destruct (CreateMonitor_host_ok w) as (w1 & HC). rewrite HC.
  change (NT_SUCCESS STATUS_SUCCESS) with true. simpl negb. cbv iota.
  destruct (CreateMonitor_spec _ _ _ _ HC)
    as (Hc & Hi & _ & (info & Hcalls & Hci & _) & _ & Hok).
  destruct (Hok eq_refl) as [_ Hmon].
  assert (Hid : to_UINT (InterlockedIncrement (g_MonitorIdCounter w))
                = to_UINT (Increments w + 1)).
  { rewrite (InterlockedIncrement_coupled _ _ Hw). apply to_UINT_to_LONG. }
  exists (count_monitor w1). split; [reflexivity|]. split.
  { unfold coupled. simpl. rewrite Hc, Hi.
    by apply InterlockedIncrement_coupled. }
  split; [exact Hi|]. unfold monitor_ids. simpl.
  rewrite Hcalls, Hmon, !fmap_app. simpl. by rewrite Hci, Hid.
Qed.

(** [n] of them in a row draw [n] consecutive ids. *)
Lemma run_boot (n : nat) : forall w,
  coupled w ->
  exists os w',
    run (repeat boot n) w = (os, w') /\
    coupled w' /\
    Increments w' = Increments w + Z.of_nat n /\
    monitor_ids w'
    = monitor_ids w
      ++ ((fun k : nat => to_UINT (Increments w + Z.of_nat k)) <$> seq 1 n) /\
    MonitorId <$> Monitors w'
    = (MonitorId <$> Monitors w)
      ++ ((fun k : nat => to_UINT (Increments w + Z.of_nat k)) <$> seq 1 n) /\
    count created (repeat boot n) os = Z.of_nat n.
Proof.
  induction n as [|n IH]; intros w Hw.
  - exists [], w. simpl. rewrite !app_nil_r, Z.add_0_r. by repeat split.
  - destruct (step_boot w Hw) as (w1 & Hstep & Hw1 & Hi1 & Hids1 & Hmon1).
    destruct (IH w1 Hw1) as (os & w' & Hrun & Hw' & Hi & Hids & Hmon & Hcnt).
    exists (Returned STATUS_SUCCESS :: os), w'.
    split.
    { change (repeat boot (S n)) with (boot :: repeat boot n).
      by rewrite (run_cons_eq _ _ _ _ _ _ _ Hstep Hrun). }
    split; [exact Hw'|]. split; [lia|].
    assert (Hseq :
      [to_UINT (Increments w + 1)]
      ++ ((fun k : nat => to_UINT (Increments w1 + Z.of_nat k)) <$> seq 1 n)
      = (fun k : nat => to_UINT (Increments w + Z.of_nat k)) <$> seq 1 (S n)).
    { simpl seq. rewrite fmap_cons. simpl app. f_equal.
      rewrite <- (fmap_S_seq 1 n), <- list_fmap_compose.
      apply list_fmap_ext. intros _ k _. simpl. f_equal. lia. }
    split; [by rewrite Hids, Hids1, <- app_assoc, Hseq|].
    split; [by rewrite Hmon, Hmon1, <- app_assoc, Hseq|].
    change (repeat boot (S n)) with (boot :: repeat boot n).
    rewrite count_cons, Hcnt.
    change (created boot (Returned STATUS_SUCCESS)) with true. lia.
Qed.

Lemma coupled_initial : coupled initial.
Proof. reflexivity. Qed.

(** C6, as stated, fails: the counter is a 32-bit value.  After 2^32 + 1
    successful init-finished callbacks from the initial state, the first and
    the last monitor both have id 1. *)
Lemma monitor_ids_repeat_after_wrap :
  exists es os w' (i j : nat),
    run es initial = (os, w') /\ (i < j)%nat /\
    monitor_ids w' !! i = Some 1 /\ monitor_ids w' !! j = Some 1.
Proof.
  destruct (run_boot (Z.to_nat 4294967297) initial coupled_initial)
    as (os & w' & Hrun & _ & _ & Hids & _).
  exists (repeat boot (Z.to_nat 4294967297)), os, w', 0%nat,
    (Z.to_nat 4294967296).
  split; [exact Hrun|]. split; [lia|].
  rewrite Hids. change (monitor_ids initial) with (@nil Z).
  rewrite app_nil_l, !list_lookup_fmap, !lookup_seq_lt by lia.
  split; [reflexivity|].
  rewrite Nat.add_comm. cbn [fmap option_fmap option_map].
  rewrite Nat2Z.inj_add, Z2Nat.id by lia. reflexivity.
Qed.

(** C6, amended. As long as the counter has been incremented fewer than 2^32
    times since the driver was loaded, the ids given to monitors, in the
    order of the creation calls, are strictly increasing and never repeat,
    whatever requests (destroy requests included) came in between; each is
    the number of an increment of the one counter. *)
Theorem monitor_ids_increasing (es : list Event) (os : list Outcome)
    (w' : World) :
  run es initial = (os, w') ->
  Increments w' < 2 ^ 32 ->
  StronglySorted Z.lt (monitor_ids w') /\
  NoDup (monitor_ids w') /\
  Forall (fun id => 0 < id <= Increments w') (monitor_ids w').
Proof.
  intros Hrun Hbound.
  destruct (run_summary _ _ _ _ Hrun)
    as (_ & _ & _ & (newc & newm & Hcalls & _ & Hdr) & _).
  destruct (Hdr coupled_initial) as [Hdrawn _].
  unfold monitor_ids. rewrite Hcalls. simpl app.
  destruct (drawn_exact _ _ _ ltac:(reflexivity) Hbound Hdrawn) as [Hs Hr].
  split; [exact Hs|]. split; [by apply StronglySorted_lt_NoDup|exact Hr].
Qed.

Lemma monitor_ids_increasing_witness :
  StronglySorted Z.lt
    (monitor_ids
       (run [boot;
             IoDeviceControl request_ok IOCTL_EXPANDSCREEN_DESTROY_MONITOR;
             IoDeviceControl request_ok IOCTL_EXPANDSCREEN_CREATE_MONITOR;
             boot] initial).2).
Proof.
  eapply monitor_ids_increasing.
  - apply surjective_pairing.
  - vm_compute. reflexivity.
Defined.

(** C7, as stated, fails: [MonitorCount] is a 32-bit [LONG].  After 2^31
    successful creations and no destruction it is -2^31. *)
Lemma MonitorCount_negative_after_wrap :
  exists es os w',
    run es initial = (os, w') /\
    count created es os = 2147483648 /\
    count destroyed es os = 0 /\
    MonitorCount w' = -2147483648.
Proof.
  destruct (run_boot (Z.to_nat 2147483648) initial coupled_initial)
    as (os & w' & Hrun & _ & _ & _ & _ & Hcnt).
  destruct (run_summary _ _ _ _ Hrun) as (_ & _ & _ & _ & Hmc & Hds).
  exists (repeat boot (Z.to_nat 2147483648)), os, w'.
  rewrite Z2Nat.id in Hcnt by lia.
  split; [exact Hrun|]. split; [exact Hcnt|]. split; [exact Hds|].
  rewrite (Hmc 0 eq_refl), Hcnt. reflexivity.
Qed.

(** C7, amended. After k successful creations and j successful destructions
    from the initial state, with k below 2^31, [MonitorCount] equals k - j
    and is not negative; every event that is a successful creation
    increments it once and every other event leaves it as it was. *)
Theorem MonitorCount_tracks (es : list Event) (os : list Outcome)
    (w' : World) :
  run es initial = (os, w') ->
  count created es os < 2 ^ 31 ->
  (MonitorCount w' = count created es os - count destroyed es os /\
   0 <= MonitorCount w') /\
  (forall e w o w1, step e w = (o, w1) ->
     MonitorCount w1 = if created e o
                       then InterlockedIncrement (MonitorCount w)
                       else MonitorCount w).
Proof.
  intros Hrun Hk.
  destruct (run_summary _ _ _ _ Hrun) as (_ & _ & _ & _ & Hmc & Hds).
  assert (Hpos : 0 <= count created es os) by (unfold count; lia).
  split.
  - rewrite (Hmc 0 eq_refl), Hds, Z.add_0_l, to_LONG_small by lia. lia.
  - intros e w o w1 Hstep.
    by destruct (step_summarised _ _ _ _ Hstep) as (_ & _ & _ & Hm & _).
Qed.

Lemma MonitorCount_tracks_witness :
  MonitorCount
    (run [boot;
          IoDeviceControl request_ok IOCTL_EXPANDSCREEN_CREATE_MONITOR;
          IoDeviceControl request_ok IOCTL_EXPANDSCREEN_DESTROY_MONITOR]
         initial).2 = 2.
Proof.
  destruct (MonitorCount_tracks
              [boot;
               IoDeviceControl request_ok IOCTL_EXPANDSCREEN_CREATE_MONITOR;
               IoDeviceControl request_ok IOCTL_EXPANDSCREEN_DESTROY_MONITOR]
              _ _ (surjective_pairing _)) as [[Heq _] _].
  - vm_compute. reflexivity.
  - rewrite Heq. vm_compute. reflexivity.
Defined.

(** Only a create request whose buffers are there writes a create record. *)
Lemma create_record_written req code w c w' out :
  ExpandScreenEvtIoDeviceControl req code w = (c, w') ->
  pOutput c = CreateMonitorOutput out ->
  code = IOCTL_EXPANDSCREEN_CREATE_MONITOR /\
  NT_SUCCESS (RetrieveInputBuffer req) = true /\
  NT_SUCCESS (RetrieveOutputBuffer req) = true.
Proof.
  unfold ExpandScreenEvtIoDeviceControl.
  destruct (code =? IOCTL_EXPANDSCREEN_CREATE_MONITOR) eqn:Hcreate.
  - apply Z.eqb_eq in Hcreate.
    destruct (NT_SUCCESS (RetrieveInputBuffer req)); simpl;
      [destruct (NT_SUCCESS (RetrieveOutputBuffer req)); simpl|];
      [done| |]; intros [= <- <-]; simpl; done.
  - destruct (code =? IOCTL_EXPANDSCREEN_DESTROY_MONITOR);
      [intros [= <- <-]; simpl; done|].
    destruct (code =? IOCTL_EXPANDSCREEN_GET_ADAPTER_INFO);
      [destruct (NT_SUCCESS (RetrieveOutputBuffer req)); simpl|];
      intros [= <- <-]; simpl; done.
Qed.

(** The id a successful create request returns is the counter plus two. *)
Lemma returned_id w : forall c1,
  c1 = InterlockedIncrement (g_MonitorIdCounter w) ->
  to_UINT (InterlockedIncrement c1) = to_UINT (g_MonitorIdCounter w + 2).
Proof.
  intros c1 ->. unfold InterlockedIncrement.
  rewrite to_LONG_idem, to_UINT_to_LONG. f_equal. lia.
Qed.

(** C8, as stated, fails: when the 32-bit counter stands at 0xFFFFFFFE
    (after 2^32 - 2 increments from the initial state), a create request
    that succeeds returns id 0 with a success status. *)
Lemma create_returns_zero_id_with_success :
  exists es os w c w',
    run es initial = (os, w) /\
    g_MonitorIdCounter w = -2 /\
    ExpandScreenEvtIoDeviceControl request_ok
      IOCTL_EXPANDSCREEN_CREATE_MONITOR w = (c, w') /\
    pOutput c = CreateMonitorOutput
                  {| out_MonitorId := 0; out_Status := STATUS_SUCCESS |}.
Proof.
  destruct (run_boot (Z.to_nat 4294967294) initial coupled_initial)
    as (os & w & Hrun & Hw & Hi & _).
  rewrite Z2Nat.id in Hi by lia.
  assert (Hc : g_MonitorIdCounter w = -2).
  { rewrite Hw, Hi. reflexivity. }
  destruct (ExpandScreenEvtIoDeviceControl request_ok
              IOCTL_EXPANDSCREEN_CREATE_MONITOR w) as [c w'] eqn:HI.
  exists (repeat boot (Z.to_nat 4294967294)), os, w, c, w'.
  split; [exact Hrun|]. split; [exact Hc|]. split; [exact HI|].
  destruct (create_request_spec _ _ _ _ HI eq_refl eq_refl)
    as (status & w1 & HC & Hres).
  destruct (CreateMonitor_host_ok w) as (w1' & HC').
  change (MonitorHostReplies request_ok) with host_ok in HC.
  rewrite HC' in HC. injection HC as <- <-.
  change (NT_SUCCESS STATUS_SUCCESS) with true in Hres.
  destruct Hres as [_ ->]. simpl pOutput.
  destruct (CreateMonitor_spec _ _ _ _ HC') as (Hc1 & _).
  rewrite (returned_id w _ Hc1), Hc. reflexivity.
Qed.

(** C8, amended. Whenever a request leaves a create-monitor output record
    and the counter does not wrap to 0 on it (it is not 0xFFFFFFFE before
    the request), the record holds either a non-zero id with
    [STATUS_SUCCESS], or id 0 with a failure status. *)
Theorem create_output_consistent (req : WDFREQUEST) (code : Z) (w : World)
    (c : Completion) (w' : World) (out : EXPANDSCREEN_CREATE_MONITOR_OUTPUT) :
  ExpandScreenEvtIoDeviceControl req code w = (c, w') ->
  pOutput c = CreateMonitorOutput out ->
  to_UINT (g_MonitorIdCounter w + 2) <> 0 ->
  (out_MonitorId out <> 0 /\ out_Status out = STATUS_SUCCESS) \/
  (out_MonitorId out = 0 /\ NT_SUCCESS (out_Status out) = false).
Proof.
  intros HI Hout Hwrap.
  destruct (create_record_written _ _ _ _ _ _ HI Hout) as (-> & Hin & Hob).
  destruct (create_request_spec _ _ _ _ HI Hin Hob)
    as (status & w1 & HC & Hres).
  destruct (CreateMonitor_spec _ _ _ _ HC) as (Hc1 & _).
  destruct (NT_SUCCESS status) eqn:Hs; destruct Hres as [_ ->];
    simpl in Hout; injection Hout as <-; simpl.
  - left. by rewrite (returned_id w _ Hc1).
  - right. done.
Qed.

Lemma create_output_consistent_witness :
  exists out,
    pOutput (ExpandScreenEvtIoDeviceControl request_ok
               IOCTL_EXPANDSCREEN_CREATE_MONITOR initial).1
    = CreateMonitorOutput out /\
    ((out_MonitorId out <> 0 /\ out_Status out = STATUS_SUCCESS) \/
     (out_MonitorId out = 0 /\ NT_SUCCESS (out_Status out) = false)).
Proof.
  exists {| out_MonitorId := 2; out_Status := STATUS_SUCCESS |}.
  assert (Hout : pOutput (ExpandScreenEvtIoDeviceControl request_ok
                            IOCTL_EXPANDSCREEN_CREATE_MONITOR initial).1
                 = CreateMonitorOutput
                     {| out_MonitorId := 2; out_Status := STATUS_SUCCESS |})
    by (vm_compute; reflexivity).
  split; [exact Hout|].
  apply (create_output_consistent request_ok
           IOCTL_EXPANDSCREEN_CREATE_MONITOR initial _ _ _
           (surjective_pairing _) Hout).
  vm_compute. discriminate.
Defined.

(** C10, as stated, fails once the counter has wrapped: after 2^32 - 1
    successful init-finished callbacks (the first monitor has id 1), a create
    request that succeeds returns id 1 as well. *)
Lemma returned_id_names_a_monitor_after_wrap :
  exists es os w c w' out m,
    run es initial = (os, w) /\
    ExpandScreenEvtIoDeviceControl request_ok
      IOCTL_EXPANDSCREEN_CREATE_MONITOR w = (c, w') /\
    pOutput c = CreateMonitorOutput out /\
    out_Status out = STATUS_SUCCESS /\
    m ∈ Monitors w' /\
    MonitorId m = out_MonitorId out.
Proof.
  destruct (run_boot (Z.to_nat 4294967295) initial coupled_initial)
    as (os & w & Hrun & Hw & Hi & _ & Hmon & _).
  rewrite Z2Nat.id in Hi by lia.
  assert (Hc : g_MonitorIdCounter w = -1).
  { rewrite Hw, Hi. reflexivity. }
  assert (Hfirst : exists m, Monitors w !! 0%nat = Some m /\ MonitorId m = 1).
  { assert (H0 : (MonitorId <$> Monitors w) !! 0%nat = Some 1).
    { rewrite Hmon. change (MonitorId <$> Monitors initial) with (@nil Z).
      rewrite app_nil_l, list_lookup_fmap, lookup_seq_lt by lia.
      reflexivity. }
    rewrite list_lookup_fmap in H0.
    destruct (Monitors w !! 0%nat) as [m|]; [|discriminate].
    exists m. split; [done|]. by injection H0. }
  destruct Hfirst as (m & Hm & Hid).
  destruct (ExpandScreenEvtIoDeviceControl request_ok
              IOCTL_EXPANDSCREEN_CREATE_MONITOR w) as [c w'] eqn:HI.
  destruct (create_request_spec _ _ _ _ HI eq_refl eq_refl)
    as (status & w1 & HC & Hres).
  destruct (CreateMonitor_host_ok w) as (w1' & HC').
  change (MonitorHostReplies request_ok) with host_ok in HC.
  rewrite HC' in HC. injection HC as <- <-.
  change (NT_SUCCESS STATUS_SUCCESS) with true in Hres.
  destruct Hres as [-> ->].
  destruct (CreateMonitor_spec _ _ _ _ HC') as (Hc1 & _ & _ & _ & _ & Hok).
  destruct (Hok eq_refl) as [_ Hmons].
  exists (repeat boot (Z.to_nat 4294967295)), os, w.
  eexists _, _, _, m.
  split; [exact Hrun|]. split; [exact HI|]. split; [reflexivity|].
  split; [reflexivity|]. split.
  - simpl. rewrite Hmons. apply elem_of_app. left.
    by eapply list_elem_of_lookup_2.
  - simpl. rewrite (returned_id w _ Hc1), Hc, Hid. reflexivity.
Qed.

(** C10, amended. A successful create request increments the shared counter
    twice; the id it returns is the [ConnectorIndex] of the monitor it
    created plus one, and, as long as the counter has been incremented fewer
    than 2^32 times since the driver was loaded, it is the id of no monitor,
    created before or after. *)
Theorem returned_id_is_spare (pre post : list Event) (req : WDFREQUEST)
    (os1 os2 : list Outcome) (w1 w2 w3 : World) (c : Completion)
    (out : EXPANDSCREEN_CREATE_MONITOR_OUTPUT) :
  run pre initial = (os1, w1) ->
  ExpandScreenEvtIoDeviceControl req IOCTL_EXPANDSCREEN_CREATE_MONITOR w1
  = (c, w2) ->
  pOutput c = CreateMonitorOutput out ->
  NT_SUCCESS (out_Status out) = true ->
  run post w2 = (os2, w3) ->
  Increments w3 < 2 ^ 32 ->
  g_MonitorIdCounter w2
  = InterlockedIncrement (InterlockedIncrement (g_MonitorIdCounter w1)) /\
  Increments w2 = Increments w1 + 2 /\
  (exists info m,
     MonitorCreateCalls w2 = MonitorCreateCalls w1 ++ [info] /\
     Monitors w2 = Monitors w1 ++ [m] /\
     MonitorId m = ConnectorIndex info /\
     out_MonitorId out = ConnectorIndex info + 1) /\
  Forall (fun m => MonitorId m <> out_MonitorId out) (Monitors w3).
Proof.
  intros Hpre HI Hout Hok Hpost Hbound.
  destruct (run_summary _ _ _ _ Hpre)
    as (_ & Hi1 & Hcp1 & (c1 & m1 & _ & Hm1 & Hd1) & _).
  specialize (Hcp1 coupled_initial).
  destruct (Hd1 coupled_initial) as [_ Hdm1].
  change (Increments initial) with 0 in *.
  destruct (create_record_written _ _ _ _ _ _ HI Hout) as (_ & Hin & Hob).
  destruct (create_request_spec _ _ _ _ HI Hin Hob)
    as (status & wc & HC & Hres).
  destruct (CreateMonitor_spec _ _ _ _ HC)
    as (Hc & Hic & _ & (info & Hcalls & Hci & _) & _ & Hsucc).
  destruct (NT_SUCCESS status) eqn:Hs; destruct Hres as [-> ->];
    simpl in Hout; injection Hout as <-; simpl in Hok; [|congruence].
  destruct (Hsucc eq_refl) as [_ Hmons].
  assert (Hcp2 : coupled (next_id (count_monitor wc)).2).
  { unfold coupled. simpl. rewrite Hc, Hic.
    apply InterlockedIncrement_coupled.
    by apply InterlockedIncrement_coupled. }
  destruct (run_summary _ _ _ _ Hpost)
    as (_ & Hi3 & _ & (c3 & m3 & _ & Hm3 & Hd3) & _).
  destruct (Hd3 Hcp2) as [_ Hdm3].
  simpl in Hi3, Hm3, Hdm3. rewrite Hic in Hi3, Hdm3.
  assert (Hmid : to_UINT (InterlockedIncrement (g_MonitorIdCounter w1))
                 = Increments w1 + 1).
  { rewrite (InterlockedIncrement_coupled _ _ Hcp1), to_UINT_to_LONG.
    apply to_UINT_small. lia. }
  assert (Hret : to_UINT (InterlockedIncrement (g_MonitorIdCounter wc))
                 = Increments w1 + 2).
  { rewrite (returned_id w1 _ Hc), Hcp1, to_UINT_LONG_add.
    apply to_UINT_small. lia. }
  simpl. split; [by rewrite Hc|]. split; [lia|]. split.
  { exists info, {| MonitorId := to_UINT (InterlockedIncrement
                                            (g_MonitorIdCounter w1));
                    IsActive := false; SwapChain := None |}.
    split; [exact Hcalls|]. split; [exact Hmons|].
    split; [simpl; by rewrite Hci|]. rewrite Hci, Hret, Hmid. lia. }
  rewrite Hm3, Hmons, Hm1, Hret. simpl app.
  destruct (drawn_exact 0 (Increments w1) _ ltac:(lia) ltac:(lia) Hdm1)
    as [_ Hr1].
  destruct (drawn_exact (Increments w1 + 1 + 1) (Increments w3) _
              ltac:(lia) Hbound Hdm3) as [_ Hr3].
  rewrite Forall_fmap in Hr1, Hr3.
  repeat rewrite Forall_app. repeat split.
  - eapply Forall_impl; [exact Hr1|]. simpl. intros m Hm. lia.
  - constructor; [|constructor]. simpl. rewrite Hmid. lia.
  - eapply Forall_impl; [exact Hr3|]. simpl. intros m Hm. lia.
Qed.

Lemma returned_id_is_spare_witness :
  let w1 := (run [boot] initial).2 in
  let r := ExpandScreenEvtIoDeviceControl request_ok
             IOCTL_EXPANDSCREEN_CREATE_MONITOR w1 in
  let w3 := (run [boot] r.2).2 in
  pOutput r.1 = CreateMonitorOutput
                  {| out_MonitorId := 3; out_Status := STATUS_SUCCESS |} /\
  Forall (fun m => MonitorId m <> 3) (Monitors w3).
Proof.
  intros w1 r w3.
  assert (Hout : pOutput r.1
                 = CreateMonitorOutput
                     {| out_MonitorId := 3; out_Status := STATUS_SUCCESS |})
    by (vm_compute; reflexivity).
  split; [exact Hout|].
  destruct (returned_id_is_spare [boot] [boot] request_ok _ _ _ _ _ _ _
              (surjective_pairing _) (surjective_pairing _) Hout eq_refl
              (surjective_pairing _)) as (_ & _ & _ & H).
  - vm_compute. reflexivity.
  - exact H.
Defined.

End RunProofs.

(** ** The frame step *)
Section SwapChainProofs.
Import Win SwapChain.

(** A first call that fails is followed by no release. *)
Lemma no_release_after_failed_acquire ctx host :
  NT_SUCCESS (acquire_status host) = false ->
  (ProcessSwapChainFrame ctx host).1 = acquire_status host /\
  releases (ProcessSwapChainFrame ctx host).2 = 0%nat.
Proof.
  intros Hs. unfold ProcessSwapChainFrame. rewrite Hs. simpl.
  split; [done|]. by destruct (acquire_status host =? STATUS_PENDING).
Qed.

(** A first call that passes [NT_SUCCESS] is followed by exactly one
    release, of the surface it returned, whatever the dirty-region count. *)
Lemma one_release_after_acquire ctx host :
  NT_SUCCESS (acquire_status host) = true ->
  (ProcessSwapChainFrame ctx host).1 = release_status host /\
  releases (ProcessSwapChainFrame ctx host).2 = 1%nat /\
  Call {| call_SwapChain := hSwapChain ctx; call_pSurface := pSurface host;
          call_wantsOutput := false |}
    ∈ (ProcessSwapChainFrame ctx host).2.
Proof.
  intros Hs. unfold ProcessSwapChainFrame. rewrite Hs. simpl.
  split; [done|].
  destruct (DirtyRectCount host =? 0), (NT_SUCCESS (release_status host));
    simpl; (split; [reflexivity|]);
    repeat first [ apply list_elem_of_here | apply list_elem_of_further ].
Qed.

(** C9, on the code: [STATUS_PENDING] passes [NT_SUCCESS], so the test
    [status != STATUS_PENDING] under [!NT_SUCCESS(status)] is never reached
    with it; a first call answered with [STATUS_PENDING] is followed by the
    release call like a successful one, and the step returns the status of
    that release. *)
Theorem pending_acquire_is_released (ctx : SWAPCHAIN_CONTEXT)
    (dirty surface : Z) (released : NTSTATUS) :
  let host := {| acquire_status := STATUS_PENDING; DirtyRectCount := dirty;
                 pSurface := surface; release_status := released |} in
  NT_SUCCESS STATUS_PENDING = true /\
  (ProcessSwapChainFrame ctx host).1 = released /\
  releases (ProcessSwapChainFrame ctx host).2 = 1%nat /\
  Call {| call_SwapChain := hSwapChain ctx; call_pSurface := surface;
          call_wantsOutput := false |}
    ∈ (ProcessSwapChainFrame ctx host).2.
Proof.
  intros host. split; [reflexivity|].
  apply (one_release_after_acquire ctx host). reflexivity.
Qed.

End SwapChainProofs.

(** ** More on the descriptor encoder *)
Section EdidFields.
Import Win Edid.

Ltac buffer_length :=
  repeat first [ rewrite length_store
               | rewrite length_RtlZeroMemory
               | rewrite length_copy_name ].

Ltac peel :=
  repeat first [ rewrite lookup_store_ne by lia
               | rewrite lookup_RtlZeroMemory_out by lia
               | rewrite lookup_copy_name_out by (simpl; lia) ].

Lemma length_name_loop name (k : nat) : forall b,
  length (foldl (fun b i => store (77 + i) (char_at name i) b) b (seq 0 k))
  = length b.
Proof.
  induction k as [|k IH]; intros b; [done|].
  rewrite seq_S, foldl_app. cbn [foldl]. rewrite length_store. apply IH.
Qed.

Lemma lookup_copy_name_in name buf (i : nat) :
  (77 <= i < 77 + Nat.min 13 (String.length name))%nat ->
  (i < length buf)%nat ->
  copy_name name buf !! i = Some (to_BYTE (char_at name (i - 77))).
Proof.
  unfold copy_name. generalize (Nat.min 13 (String.length name)).
  intros n. induction n as [|n IH]; intros Hi Hlen; [lia|].
  rewrite seq_S, foldl_app. cbn [foldl].
  destruct (decide (i = 77 + n)%nat) as [->|Hne].
  - rewrite lookup_store_eq by (rewrite length_name_loop; lia).
    do 3 f_equal. lia.
  - rewrite lookup_store_ne by lia. apply IH; lia.
Qed.

(** A list read off a buffer index by index. *)
Lemma take_drop_lookups {A} (l0 l : list A) (off n : nat) :
  n = length l0 ->
  (forall i v, l0 !! i = Some v -> l !! (off + i)%nat = Some v) ->
  take n (drop off l) = l0.
Proof.
  intros -> H. apply list_eq. intros i.
  rewrite lookup_take, lookup_drop.
  destruct (decide (i < length l0)%nat) as [Hi|Hi].
  - destruct (lookup_lt_is_Some_2 l0 i Hi) as [v Hv]. rewrite Hv. by apply H.
  - symmetry. apply lookup_ge_None_2. lia.
Qed.

Ltac at_index Hlen :=
  first [ rewrite lookup_store_eq by (buffer_length; lia)
        | rewrite lookup_RtlZeroMemory_in by (buffer_length; lia)
        | rewrite lookup_copy_name_in;
            [ | simpl; lia | buffer_length; lia ] ].

Ltac fixed_bytes Hlen :=
  let i := fresh "i" in let v := fresh "v" in let Hi := fresh "Hi" in
  intros i v Hi;
  repeat (destruct i as [|i];
          [ injection Hi as <-; simpl Nat.add; peel; at_index Hlen;
            reflexivity | ]);
  discriminate Hi.

(** X1. Whatever the width and height, the descriptor starts with the
    eight-byte header 00 FF FF FF FF FF FF 00, carries the same manufacturer,
    product, serial, date, version 1.4 and input bytes (bytes 0 to 20), the
    same gamma, feature, colour and timing-table bytes (bytes 23 to 53), the
    blanking bytes 0x30 and 0x1E, and zeros in bytes 62 to 71 and 90 to 126.
    The manufacturer id stored, 0x15 0x30, reads as the letters 5, 9, 16. *)
Theorem GenerateEdid_fixed_fields (buf : list Z) (Width Height : Z) :
  length buf = EDID_SIZE ->
  exists edid,
    GenerateEdid (Some buf) Width Height = (STATUS_SUCCESS, Some edid) /\
    take 21 edid
    = [0x00; 0xFF; 0xFF; 0xFF; 0xFF; 0xFF; 0xFF; 0x00; 0x15; 0x30;
       0x01; 0x00; 0x01; 0x00; 0x00; 0x00; 0x01; 0x24; 0x01; 0x04; 0x95] /\
    take 31 (drop 23 edid)
    = [0x78; 0x2A; 0x0D; 0xC9; 0xA0; 0x57; 0x47; 0x98; 0x27; 0x12; 0x48; 0x4C;
       0; 0; 0; 0; 0; 0; 0; 0; 0; 0; 0; 0; 0; 0; 0; 0; 0; 0; 0] /\
    edid !! 57%nat = Some 0x30 /\ edid !! 60%nat = Some 0x1E /\
    take 10 (drop 62 edid) = replicate 10 0 /\
    take 37 (drop 90 edid) = replicate 37 0 /\
    pnp_letters edid = [5; 9; 16].
Proof.
  intros Hlen. unfold EDID_SIZE in Hlen.
  unfold GenerateEdid. cbv zeta.
  change (String.length displayName) with 12%nat.
  eexists. split; [reflexivity|].
  match goal with |- take 21 ?e = _ /\ _ => set (edid := e) end.
  assert (H0 : take 21 (drop 0 edid)
    = [0x00; 0xFF; 0xFF; 0xFF; 0xFF; 0xFF; 0xFF; 0x00; 0x15; 0x30;
       0x01; 0x00; 0x01; 0x00; 0x00; 0x00; 0x01; 0x24; 0x01; 0x04; 0x95]).
  { apply take_drop_lookups; [reflexivity|]. subst edid. fixed_bytes Hlen. }
  rewrite drop_0 in H0.
  split; [exact H0|]. split.
  { apply take_drop_lookups; [reflexivity|]. subst edid.
    fixed_bytes Hlen. }
  assert (H57 : edid !! 57%nat = Some 0x30).
  { subst edid. peel. at_index Hlen. reflexivity. }
  assert (H60 : edid !! 60%nat = Some 0x1E).
  { subst edid. peel. at_index Hlen. reflexivity. }
  split; [exact H57|]. split; [exact H60|]. split.
  { apply take_drop_lookups; [reflexivity|]. subst edid.
    fixed_bytes Hlen. }
  split.
  { apply take_drop_lookups; [reflexivity|]. subst edid.
    fixed_bytes Hlen. }
  assert (H8 : edid !! 8%nat = Some 0x15)
    by (apply (f_equal (fun l => l !! 8%nat)) in H0;
        by rewrite lookup_take_lt in H0 by lia).
  assert (H9 : edid !! 9%nat = Some 0x30)
    by (apply (f_equal (fun l => l !! 9%nat)) in H0;
        by rewrite lookup_take_lt in H0 by lia).
  unfold pnp_letters, load. rewrite H8, H9. reflexivity.
Qed.

Lemma GenerateEdid_fixed_fields_witness :
  exists edid,
    GenerateEdid (Some (replicate 256 9)) 1280 720
    = (STATUS_SUCCESS, Some edid) /\
    take 8 edid = [0x00; 0xFF; 0xFF; 0xFF; 0xFF; 0xFF; 0xFF; 0x00] /\
    pnp_letters edid = [5; 9; 16].
Proof.
  destruct (GenerateEdid_fixed_fields (replicate 256 9) 1280 720 eq_refl)
    as (edid & Heq & H0 & _ & _ & _ & _ & _ & Hpnp).
  exists edid. split; [exact Heq|]. split; [|exact Hpnp].
  apply (f_equal (take 8)) in H0. rewrite take_take in H0. exact H0.
Defined.

(** The timing bytes the code computes from its arguments. *)
Lemma GenerateEdid_timing_bytes buf Width Height edid :
  length buf = EDID_SIZE ->
  GenerateEdid (Some buf) Width Height = (STATUS_SUCCESS, Some edid) ->
  edid !! 56%nat = Some (to_BYTE (Z.land Width 0xFF)) /\
  edid !! 58%nat
  = Some (to_BYTE (Z.shiftl (Z.land (Z.shiftr Width 8) 0x0F) 4)) /\
  edid !! 59%nat = Some (to_BYTE (Z.land Height 0xFF)) /\
  edid !! 61%nat
  = Some (to_BYTE (Z.shiftl (Z.land (Z.shiftr Height 8) 0x0F) 4)).
Proof.
  intros Hlen Heq.
  unfold GenerateEdid in Heq. cbv zeta in Heq.
  change (String.length displayName) with 12%nat in Heq.
  injection Heq as <-. unfold EDID_SIZE in Hlen.
  repeat split; peel; at_index Hlen; reflexivity.
Qed.

Lemma low_byte x : to_BYTE (Z.land x 0xFF) = x mod 256.
Proof.
  change 0xFF with (Z.ones 8). rewrite Z.land_ones by lia.
  unfold to_BYTE. apply Z.mod_mod. lia.
Qed.

Lemma high_nibble x :
  to_BYTE (Z.shiftl (Z.land (Z.shiftr x 8) 0x0F) 4) = 16 * ((x / 256) mod 16).
Proof.
  change 0x0F with (Z.ones 4).
  rewrite Z.land_ones, Z.shiftr_div_pow2, Z.shiftl_mul_pow2 by lia.
  change (2 ^ 8) with 256. change (2 ^ 4) with 16.
  unfold to_BYTE. change (2 ^ 8) with 256.
  pose proof (Z.mod_pos_bound (x / 256) 16 ltac:(lia)).
  rewrite Z.mod_small; lia.
Qed.

(** Low byte plus high nibble hold the value modulo 4096. *)
Lemma active12_value edid (lo hi : nat) x :
  edid !! lo = Some (to_BYTE (Z.land x 0xFF)) ->
  edid !! hi = Some (to_BYTE (Z.shiftl (Z.land (Z.shiftr x 8) 0x0F) 4)) ->
  active12 edid lo hi = x mod 4096 /\ load hi edid mod 16 = 0.
Proof.
  intros Hlo Hhi. unfold active12, load. rewrite Hlo, Hhi. simpl.
  rewrite low_byte, high_nibble. split.
  - rewrite (Z.mul_comm 16), Z.div_mul by lia.
    change 4096 with (256 * 16). rewrite Z.rem_mul_r by lia. reflexivity.
  - rewrite (Z.mul_comm 16). apply Z.mod_mul. lia.
Qed.

(** Two bytes hold a value modulo 65536, low byte first. *)
Lemma le16_value edid (i : nat) x :
  edid !! i = Some (to_BYTE (Z.land x 0xFF)) ->
  edid !! S i = Some (to_BYTE (Z.land (Z.shiftr x 8) 0xFF)) ->
  le16 edid i = x mod 65536.
Proof.
  intros Hlo Hhi. unfold le16, load. rewrite Hlo, Hhi. simpl.
  rewrite !low_byte, Z.shiftr_div_pow2 by lia. change (2 ^ 8) with 256.
  change 65536 with (256 * 256). rewrite Z.rem_mul_r by lia. reflexivity.
Qed.

(** X2. The active size written in the preferred timing reads back as the
    width and the height modulo 4096 (bytes 56 and 58, 59 and 61), hence
    exactly for sizes below 4096; the low nibbles of bytes 58 and 61, the
    upper bits of the blanking, are zero. *)
Theorem GenerateEdid_active_size (buf : list Z) (Width Height : Z) :
  length buf = EDID_SIZE ->
  exists edid,
    GenerateEdid (Some buf) Width Height = (STATUS_SUCCESS, Some edid) /\
    active12 edid 56 58 = Width mod 4096 /\
    active12 edid 59 61 = Height mod 4096 /\
    (0 <= Width < 4096 -> active12 edid 56 58 = Width) /\
    (0 <= Height < 4096 -> active12 edid 59 61 = Height) /\
    load 58 edid mod 16 = 0 /\ load 61 edid mod 16 = 0.
Proof.
  intros Hlen.
  destruct (GenerateEdid_succeeds buf Width Height) as (edid & Heq & _).
  exists edid. split; [exact Heq|].
  destruct (GenerateEdid_timing_bytes _ _ _ _ Hlen Heq)
    as (H56 & H58 & H59 & H61).
  destruct (active12_value _ _ _ _ H56 H58) as [Hw Hw0].
  destruct (active12_value _ _ _ _ H59 H61) as [Hh Hh0].
  rewrite Hw, Hh. repeat split; try done; intros; by apply Z.mod_small.
Qed.

Lemma GenerateEdid_active_size_witness :
  exists edid,
    GenerateEdid (Some (replicate 256 0)) 3840 2160
    = (STATUS_SUCCESS, Some edid) /\
    active12 edid 56 58 = 3840 /\ active12 edid 59 61 = 2160.
Proof.
  destruct (GenerateEdid_active_size (replicate 256 0) 3840 2160 eq_refl)
    as (edid & Heq & _ & _ & Hw & Hh & _).
  exists edid. split; [exact Heq|]. split; [apply Hw; lia|apply Hh; lia].
Defined.

(** X3. The pixel clock field (bytes 54-55, low byte first) holds
    Width * Height * 60 / 10000, computed in 32-bit unsigned arithmetic,
    modulo 65536; it is exactly Width * Height * 60 / 10000 when the product
    fits 32 bits and the quotient 16 bits, and is cut to its low 16 bits
    otherwise (7680 x 4320 gives 199065, stored as 2457). *)
Theorem GenerateEdid_pixel_clock (buf : list Z) (Width Height : Z) :
  length buf = EDID_SIZE ->
  exists edid,
    GenerateEdid (Some buf) Width Height = (STATUS_SUCCESS, Some edid) /\
    le16 edid 54
    = (to_UINT (to_UINT (Width * Height) * 60) / 10000) mod 65536 /\
    (0 <= Width * Height * 60 < 2 ^ 32 ->
     Width * Height * 60 / 10000 < 65536 ->
     le16 edid 54 = Width * Height * 60 / 10000) /\
    (Width = 7680 -> Height = 4320 -> le16 edid 54 = 2457).
Proof.
  intros Hlen.
  destruct (GenerateEdid_succeeds buf Width Height) as (edid & Heq & _).
  exists edid. split; [exact Heq|].
  destruct (GenerateEdid_computed_bytes _ _ _ _ Hlen Heq)
    as (_ & _ & H54 & H55).
  rewrite (le16_value _ _ _ H54 H55). split; [reflexivity|]. split.
  - intros Hfit Hq. unfold to_UINT.
    assert (Hwh : 0 <= Width * Height < 2 ^ 32) by lia.
    rewrite (Z.mod_small (Width * Height)) by exact Hwh.
    rewrite (Z.mod_small (Width * Height * 60)) by exact Hfit.
    apply Z.mod_small. split; [apply Z.div_pos; lia|exact Hq].
  - intros -> ->. reflexivity.
Qed.

Lemma GenerateEdid_pixel_clock_witness :
  exists edid,
    GenerateEdid (Some (replicate 256 0)) 2560 1600
    = (STATUS_SUCCESS, Some edid) /\
    le16 edid 54 = 2560 * 1600 * 60 / 10000.
Proof.
  destruct (GenerateEdid_pixel_clock (replicate 256 0) 2560 1600 eq_refl)
    as (edid & Heq & _ & Hexact & _).
  exists edid. split; [exact Heq|].
  apply Hexact; [lia|]. reflexivity.
Defined.

(** X4. Bytes 72 to 89 are the display-name descriptor: the tag 00 00 00 FC
    00, the twelve characters of the product name, and a line feed in the
    last of the thirteen name bytes. *)
Theorem GenerateEdid_name_descriptor (buf : list Z) (Width Height : Z) :
  length buf = EDID_SIZE ->
  exists edid,
    GenerateEdid (Some buf) Width Height = (STATUS_SUCCESS, Some edid) /\
    take 18 (drop 72 edid)
    = [0x00; 0x00; 0x00; 0xFC; 0x00] ++ codes displayName ++ [0x0A].
Proof.
  intros Hlen. unfold EDID_SIZE in Hlen.
  unfold GenerateEdid. cbv zeta.
  change (String.length displayName) with 12%nat.
  eexists. split; [reflexivity|].
  change ([0x00; 0x00; 0x00; 0xFC; 0x00] ++ codes displayName ++ [0x0A])
    with [0; 0; 0; 252; 0; 69; 120; 112; 97; 110; 100; 83; 99; 114; 101; 101;
          110; 10].
  apply take_drop_lookups; [reflexivity|]. fixed_bytes Hlen.
Qed.

Lemma GenerateEdid_name_descriptor_witness :
  exists edid,
    GenerateEdid (Some (replicate 256 1)) 1920 1080
    = (STATUS_SUCCESS, Some edid) /\
    take 18 (drop 72 edid)
    = [0; 0; 0; 252; 0; 69; 120; 112; 97; 110; 100; 83; 99; 114; 101; 101;
       110; 10].
Proof.
  exact (GenerateEdid_name_descriptor (replicate 256 1) 1920 1080 eq_refl).
Defined.

Lemma take_store (n i : nat) v b :
  (i < n)%nat -> take n (store i v b) = store i v (take n b).
Proof. apply take_insert_lt. Qed.

Lemma take_RtlZeroMemory (n off k : nat) b :
  (off + k <= n)%nat ->
  take n (RtlZeroMemory off k b) = RtlZeroMemory off k (take n b).
Proof.
  induction k as [|k IH]; intros Hk; [done|].
  rewrite !RtlZeroMemory_S, take_store, IH by lia. done.
Qed.

Lemma take_copy_name (n : nat) name b :
  (90 <= n)%nat -> take n (copy_name name b) = copy_name name (take n b).
Proof.
  intros Hn. unfold copy_name.
  assert (Hk : (Nat.min 13 (String.length name) <= 13)%nat) by lia.
  revert Hk. generalize (Nat.min 13 (String.length name)). intros k.
  induction k as [|k IH]; intros Hk; [done|].
  rewrite !seq_S, !foldl_app. cbn [foldl].
  rewrite take_store, IH by lia. done.
Qed.

Lemma checksum_loop_take (n : nat) b :
  (127 <= n)%nat -> checksum_loop (take n b) = checksum_loop b.
Proof.
  intros Hn. unfold checksum_loop.
  assert (Hk : (127 <= 127)%nat) by lia. revert Hk.
  generalize 127%nat at 1 3 4. intros k.
  induction k as [|k IH]; intros Hk; [done|].
  rewrite !seq_S, !foldl_app. cbn [foldl]. rewrite IH by lia.
  unfold load. by rewrite lookup_take_lt by lia.
Qed.

(** X5. On a buffer of at least [EDID_SIZE] bytes the encoder rewrites the
    first [EDID_SIZE] bytes with a content that depends on the width and the
    height only, not on what the buffer held, and leaves every byte after
    them as it was. *)
Theorem GenerateEdid_stays_in_bounds (buf : list Z) (Width Height : Z) :
  (EDID_SIZE <= length buf)%nat ->
  exists edid edid0,
    GenerateEdid (Some buf) Width Height = (STATUS_SUCCESS, Some edid) /\
    GenerateEdid (Some (replicate EDID_SIZE 0)) Width Height
    = (STATUS_SUCCESS, Some edid0) /\
    edid = edid0 ++ drop EDID_SIZE buf.
Proof.
  intros Hlen. unfold EDID_SIZE in Hlen.
  unfold GenerateEdid. cbv zeta.
  change (String.length displayName) with 12%nat.
  eexists _, _. split; [reflexivity|]. split; [reflexivity|].
  match goal with |- ?e = _ => rewrite <- (take_drop EDID_SIZE e) at 1 end.
  f_equal.
  - unfold EDID_SIZE.
    rewrite take_store by lia.
    rewrite <- (checksum_loop_take 256) by lia.
    repeat first [ rewrite take_store by lia
                 | rewrite take_RtlZeroMemory by lia
                 | rewrite take_copy_name by lia ].
    rewrite !(RtlZeroMemory_whole 256); [reflexivity| |].
    + apply length_replicate.
    + rewrite length_take. lia.
  - apply list_eq. intros i. unfold EDID_SIZE. rewrite !lookup_drop.
    peel. reflexivity.
Qed.


Lemma GenerateEdid_stays_in_bounds_witness :
  exists edid edid0,
    GenerateEdid (Some (replicate 256 7 ++ [1; 2; 3])) 1280 720
    = (STATUS_SUCCESS, Some edid) /\
    GenerateEdid (Some (replicate EDID_SIZE 0)) 1280 720
    = (STATUS_SUCCESS, Some edid0) /\
    edid = edid0 ++ [1; 2; 3].
Proof.
  apply (GenerateEdid_stays_in_bounds (replicate 256 7 ++ [1; 2; 3]) 1280 720).
  vm_compute. lia.
Defined.

(** X6. For every mode of the catalog, the descriptor of its width and
    height holds them without loss: the active size reads back exactly, the
    pixel clock field is width * height * 60 / 10000, and the size bytes are
    width * 254 / 9600 and height * 254 / 9600 rounded down. *)
Theorem catalog_modes_encode_exactly (m : Modes.DISPLAY_MODE) (buf : list Z) :
  m ∈ Modes.g_SupportedModes ->
  length buf = EDID_SIZE ->
  exists edid,
    GenerateEdid (Some buf) (Modes.Width m) (Modes.Height m)
    = (STATUS_SUCCESS, Some edid) /\
    active12 edid 56 58 = Modes.Width m /\
    active12 edid 59 61 = Modes.Height m /\
    le16 edid 54 = Modes.Width m * Modes.Height m * 60 / 10000 /\
    edid !! 21%nat = Some (Modes.Width m * 254 / 9600) /\
    edid !! 22%nat = Some (Modes.Height m * 254 / 9600).
Proof.
  intros Hm Hlen.
  destruct (GenerateEdid_succeeds buf (Modes.Width m) (Modes.Height m))
    as (edid & Heq & _).
  exists edid. split; [exact Heq|].
  destruct (GenerateEdid_computed_bytes _ _ _ _ Hlen Heq)
    as (H21 & H22 & H54 & H55).
  destruct (GenerateEdid_timing_bytes _ _ _ _ Hlen Heq)
    as (H56 & H58 & H59 & H61).
  destruct (active12_value _ _ _ _ H56 H58) as [Hw _].
  destruct (active12_value _ _ _ _ H59 H61) as [Hh _].
  rewrite Hw, Hh, (le16_value _ _ _ H54 H55), H21, H22.
  clear - Hm. apply list_elem_of_In in Hm. simpl in Hm.
  destruct Hm as [<-|[<-|[<-|[<-|[<-|[]]]]]]; repeat split; reflexivity.
Qed.

Lemma catalog_modes_encode_exactly_witness :
  exists edid,
    GenerateEdid (Some (replicate 256 0)) 3840 2160
    = (STATUS_SUCCESS, Some edid) /\
    active12 edid 56 58 = 3840 /\ active12 edid 59 61 = 2160 /\
    le16 edid 54 = 49766 /\
    edid !! 21%nat = Some 101 /\ edid !! 22%nat = Some 57.
Proof.
  apply (catalog_modes_encode_exactly
           {| Modes.Width := 3840; Modes.Height := 2160;
              Modes.RefreshRate := 60 |} (replicate 256 0)).
  - repeat first [ apply list_elem_of_here | apply list_elem_of_further ].
  - reflexivity.
Defined.

End EdidFields.

Section MoreRunProofs.
Import Win IddCx Driver Run MonitorSwapChain.

(** [CreateMonitor] as one equation. *)
Lemma CreateMonitor_effects host w :
  exists edid0,
    Edid.GenerateEdid (Some (replicate Edid.EDID_SIZE 0)) 1920 1080
    = (STATUS_SUCCESS, Some edid0) /\
    let id := to_UINT (InterlockedIncrement (g_MonitorIdCounter w)) in
    CreateMonitor host w
    = (first_failure host,
       {| g_MonitorIdCounter := InterlockedIncrement (g_MonitorIdCounter w);
          MonitorCount := MonitorCount w;
          MonitorCreateCalls :=
            MonitorCreateCalls w
            ++ [ {| ConnectorIndex := id;
                    MonitorType :=
                      DISPLAYCONFIG_OUTPUT_TECHNOLOGY_DISPLAYPORT_EXTERNAL;
                    MonitorDescription :=
                      {| Type_ := IDDCX_MONITOR_DESCRIPTION_TYPE_EDID;
                         DataSize := 256;
                         pData := edid0 |} |} ];
          Monitors :=
            (if NT_SUCCESS (IddCxMonitorCreate host)
             then Monitors w ++ [fresh_context id] else Monitors w);
          Increments := Increments w + 1 |}).
Proof.
  destruct default_edid as (edid0 & Heq & _).
  exists edid0. split; [exact Heq|].
  unfold CreateMonitor, next_id, first_failure. rewrite Heq. simpl.
  destruct (NT_SUCCESS (IddCxMonitorCreate host)); simpl; [|done].
  destruct (NT_SUCCESS (IddCxMonitorSetCallbacks host)); simpl; [|done].
  destruct (NT_SUCCESS (IddCxMonitorArrival host)); simpl; done.
Qed.

(** X7. [CreateMonitor] draws an id on every call, also when the host
    refuses the monitor: the counter moves by one, the id drawn goes to the
    host as connector index, and the status returned is the first failing
    answer of the host's three (success when none fails).  The context of
    the monitor is written as soon as the host created the monitor object
    and stays when a later call fails; [MonitorCount] is not touched. *)
Theorem CreateMonitor_always_draws (host : MonitorHost) (w : World) :
  let r := CreateMonitor host w in
  let id := to_UINT (InterlockedIncrement (g_MonitorIdCounter w)) in
  r.1 = first_failure host /\
  g_MonitorIdCounter r.2 = InterlockedIncrement (g_MonitorIdCounter w) /\
  Increments r.2 = Increments w + 1 /\
  MonitorCount r.2 = MonitorCount w /\
  monitor_ids r.2 = monitor_ids w ++ [id] /\
  Monitors r.2 = (if NT_SUCCESS (IddCxMonitorCreate host)
                  then Monitors w ++ [fresh_context id] else Monitors w).
Proof.
  intros r id. subst r.
  destruct (CreateMonitor_effects host w) as (edid0 & _ & ->). simpl.
  unfold monitor_ids. simpl. rewrite fmap_app. done.
Qed.


Lemma first_failure_ok host :
  NT_SUCCESS (first_failure host)
  = NT_SUCCESS (IddCxMonitorCreate host)
    && NT_SUCCESS (IddCxMonitorSetCallbacks host)
    && NT_SUCCESS (IddCxMonitorArrival host).
Proof.
  unfold first_failure.
  destruct (NT_SUCCESS (IddCxMonitorCreate host)) eqn:H1; simpl; [|done].
  destruct (NT_SUCCESS (IddCxMonitorSetCallbacks host)) eqn:H2; simpl; [|done].
  destruct (NT_SUCCESS (IddCxMonitorArrival host)) eqn:H3; simpl; done.
Qed.

(** What one monitor creation adds to the state. *)
Lemma CreateMonitor_adds edid0 host w status w1 :
  default_descriptor edid0 ->
  CreateMonitor host w = (status, w1) ->
  status = first_failure host /\
  Increments w1 = Increments w + 1 /\
  MonitorCount w1 = MonitorCount w /\
  exists info newm,
    MonitorCreateCalls w1 = MonitorCreateCalls w ++ [info] /\
    Monitors w1 = Monitors w ++ newm /\
    MonitorDescription info
    = {| Type_ := IDDCX_MONITOR_DESCRIPTION_TYPE_EDID; DataSize := 256;
         pData := edid0 |} /\
    (length newm <= 1)%nat /\
    (NT_SUCCESS status = true -> length newm = 1%nat) /\
    Forall (fun m => IsActive m = false /\ SwapChain m = None) newm.
Proof.
  intros Hgen HC.
  destruct (CreateMonitor_effects host w) as (e0 & He0 & HC').
  unfold default_descriptor in Hgen. rewrite Hgen in He0.
  injection He0 as <-. clear Hgen.
  rewrite HC in HC'. injection HC' as -> ->. simpl.
  repeat (split; [done|]).
  eexists _, (if NT_SUCCESS (IddCxMonitorCreate host) then [_] else []).
  split; [reflexivity|]. rewrite first_failure_ok.
  destruct (NT_SUCCESS (IddCxMonitorCreate host)); simpl.
  - repeat split; try done; try lia. by repeat constructor.
  - rewrite app_nil_r. repeat split; try done; try lia.
Qed.

(** What one event adds to the state. *)
Lemma step_adds edid0 e w o w1 :
  default_descriptor edid0 ->
  step e w = (o, w1) ->
  exists newc newm,
    MonitorCreateCalls w1 = MonitorCreateCalls w ++ newc /\
    Monitors w1 = Monitors w ++ newm /\
    (if created e o then 1 else 0) <= Z.of_nat (length newm) /\
    (length newm <= length newc)%nat /\
    Z.of_nat (length newc) <= Increments w1 - Increments w <= 2 /\
    Forall (fun info =>
              MonitorDescription info
              = {| Type_ := IDDCX_MONITOR_DESCRIPTION_TYPE_EDID;
                   DataSize := 256; pData := edid0 |}) newc /\
    Forall (fun m => IsActive m = false /\ SwapChain m = None) newm.
Proof.
  intros Hgen Hstep.
  assert (Hidle : created e o = false -> w1 = w ->
    exists newc newm,
      MonitorCreateCalls w1 = MonitorCreateCalls w ++ newc /\
      Monitors w1 = Monitors w ++ newm /\
      (if created e o then 1 else 0) <= Z.of_nat (length newm) /\
      (length newm <= length newc)%nat /\
      Z.of_nat (length newc) <= Increments w1 - Increments w <= 2 /\
      Forall (fun info =>
                MonitorDescription info
                = {| Type_ := IDDCX_MONITOR_DESCRIPTION_TYPE_EDID;
                     DataSize := 256; pData := edid0 |}) newc /\
      Forall (fun m => IsActive m = false /\ SwapChain m = None) newm).
  { intros -> ->. exists [], []. rewrite !app_nil_r. simpl.
    split_and!; try done; lia. }
  destruct e as [st host|req code]; unfold step in Hstep.
  - unfold ExpandScreenEvtAdapterInitFinished in Hstep.
    destruct (NT_SUCCESS st) eqn:Hst; simpl in Hstep.
    + destruct (CreateMonitor host w) as [status wc] eqn:HC.
      destruct (CreateMonitor_adds _ _ _ _ _ Hgen HC)
        as (_ & Hi & _ & info & newm & Hc & Hm & Hd & Hle & Hone & Hfresh).
      destruct (NT_SUCCESS status) eqn:Hs; simpl in Hstep;
        injection Hstep as <- <-; exists [info], newm; simpl;
        rewrite ?Hs, Hi; try pose proof (Hone eq_refl);
        split_and!; try done; try lia; by constructor.
    + injection Hstep as <- <-. apply Hidle; [simpl; by rewrite Hst|done].
  - destruct (ExpandScreenEvtIoDeviceControl req code w) as [c w2] eqn:HI.
    injection Hstep as <- <-.
    destruct (code =? IOCTL_EXPANDSCREEN_CREATE_MONITOR) eqn:Hcode.
    + apply Z.eqb_eq in Hcode. subst code.
      destruct (NT_SUCCESS (RetrieveInputBuffer req)) eqn:Hin;
        [destruct (NT_SUCCESS (RetrieveOutputBuffer req)) eqn:Hout|].
      * destruct (create_request_spec _ _ _ _ HI Hin Hout)
          as (status & wc & HC & Hres).
        destruct (CreateMonitor_adds _ _ _ _ _ Hgen HC)
          as (_ & Hi & _ & info & newm & Hc & Hm & Hd & Hle & Hone & Hfresh).
        destruct (NT_SUCCESS status) eqn:Hs; destruct Hres as [-> ->];
          exists [info], newm; simpl; rewrite ?Hs, Hi;
          try pose proof (Hone eq_refl);
          split_and!; try done; try lia; by constructor.
      * unfold ExpandScreenEvtIoDeviceControl in HI.
        rewrite Z.eqb_refl, Hin, Hout in HI. simpl in HI.
        injection HI as <- <-. by apply Hidle.
      * unfold ExpandScreenEvtIoDeviceControl in HI.
        rewrite Z.eqb_refl, Hin in HI. simpl in HI.
        injection HI as <- <-. by apply Hidle.
    + unfold ExpandScreenEvtIoDeviceControl in HI. rewrite Hcode in HI.
      destruct (code =? IOCTL_EXPANDSCREEN_DESTROY_MONITOR);
        [injection HI as <- <-; by apply Hidle|].
      destruct (code =? IOCTL_EXPANDSCREEN_GET_ADAPTER_INFO);
        [destruct (NT_SUCCESS (RetrieveOutputBuffer req)); simpl in HI|];
        injection HI as <- <-; by apply Hidle.
Qed.

(** What a run adds to the state. *)
Lemma run_adds edid0 es : forall w os w',
  default_descriptor edid0 ->
  run es w = (os, w') ->
  exists newc newm,
    MonitorCreateCalls w' = MonitorCreateCalls w ++ newc /\
    Monitors w' = Monitors w ++ newm /\
    count created es os <= Z.of_nat (length newm) /\
    (length newm <= length newc)%nat /\
    Z.of_nat (length newc) <= Increments w' - Increments w
                           <= 2 * Z.of_nat (length es) /\
    Forall (fun info =>
              MonitorDescription info
              = {| Type_ := IDDCX_MONITOR_DESCRIPTION_TYPE_EDID;
                   DataSize := 256; pData := edid0 |}) newc /\
    Forall (fun m => IsActive m = false /\ SwapChain m = None) newm.
Proof.
  induction es as [|e es IH]; intros w os w' Hgen Hrun.
  - injection Hrun as <- <-. exists [], []. rewrite !app_nil_r.
    unfold count. simpl. split_and!; try done; lia.
  - destruct (run_cons _ _ _ _ _ Hrun) as (o & w1 & os1 & Hstep & Hrest & ->).
    destruct (step_adds _ _ _ _ _ Hgen Hstep)
      as (c1 & m1 & Hc1 & Hm1 & Hk1 & Hl1 & Hi1 & Hd1 & Hf1).
    destruct (IH _ _ _ Hgen Hrest)
      as (c2 & m2 & Hc2 & Hm2 & Hk2 & Hl2 & Hi2 & Hd2 & Hf2).
    exists (c1 ++ c2), (m1 ++ m2).
    rewrite Hc2, Hc1, Hm2, Hm1, !app_assoc, count_cons, !length_app.
    simpl length.
    split_and!; try done; try lia; by apply Forall_app.
Qed.

(** X8. After any run of callbacks from the initial state: the monitors
    reported as created are at most the monitor contexts written, which are
    at most the creations submitted to the host, which are at most the ids
    drawn, which are at most two per event; and every monitor context still
    is inactive with no swap chain, as no callback of the run assigns one. *)
Theorem run_bookkeeping (es : list Event) (os : list Outcome) (w' : World) :
  run es initial = (os, w') ->
  count created es os <= Z.of_nat (length (Monitors w')) /\
  (length (Monitors w') <= length (MonitorCreateCalls w'))%nat /\
  Z.of_nat (length (MonitorCreateCalls w')) <= Increments w'
                                            <= 2 * Z.of_nat (length es) /\
  Forall (fun m => IsActive m = false /\ SwapChain m = None) (Monitors w').
Proof.
  intros Hrun. destruct default_edid as (edid0 & Hgen & _).
  destruct (run_adds _ _ _ _ _ Hgen Hrun)
    as (newc & newm & -> & -> & Hk & Hl & Hi & _ & Hf).
  simpl in *. split_and!; try done; lia.
Qed.

Lemma run_bookkeeping_witness :
  let w' := (run [boot; create_ok] initial).2 in
  length (Monitors w') = 2%nat /\
  (length (Monitors w') <= length (MonitorCreateCalls w'))%nat /\
  Forall (fun m => IsActive m = false /\ SwapChain m = None) (Monitors w').
Proof.
  destruct (run_bookkeeping [boot; create_ok] _ _ (surjective_pairing _))
    as (_ & Hl & _ & Hf).
  split; [reflexivity|]. split; [exact Hl|exact Hf].
Defined.

(** X9. Every monitor submitted to the host during a run carries the same
    description: type EDID, size 256, the descriptor of 1920 x 1080.  The
    width, height and refresh rate of a create request are not used: the
    request handler gives the same result whatever the input record holds. *)
Theorem every_monitor_gets_the_default_descriptor (es : list Event)
    (os : list Outcome) (w' : World) :
  run es initial = (os, w') ->
  (exists edid0,
     default_descriptor edid0 /\
     Forall (fun info =>
               MonitorDescription info
               = {| Type_ := IDDCX_MONITOR_DESCRIPTION_TYPE_EDID;
                    DataSize := 256; pData := edid0 |})
            (MonitorCreateCalls w')) /\
  (forall inp req code w,
     ExpandScreenEvtIoDeviceControl (with_input inp req) code w
     = ExpandScreenEvtIoDeviceControl req code w).
Proof.
  intros Hrun. split; [|done].
  destruct default_edid as (edid0 & Hgen & _). exists edid0.
  split; [exact Hgen|].
  destruct (run_adds _ _ _ _ _ Hgen Hrun)
    as (newc & newm & -> & _ & _ & _ & _ & Hd & _).
  exact Hd.
Qed.

Lemma every_monitor_gets_the_default_descriptor_witness :
  exists edid0,
    default_descriptor edid0 /\
    Forall (fun info =>
              MonitorDescription info
              = {| Type_ := IDDCX_MONITOR_DESCRIPTION_TYPE_EDID;
                   DataSize := 256; pData := edid0 |})
           (MonitorCreateCalls (run [create_ok; boot] initial).2).
Proof.
  exact (proj1 (every_monitor_gets_the_default_descriptor [create_ok; boot]
                  _ _ (surjective_pairing _))).
Defined.

End MoreRunProofs.

Section RequestProofs.
Import Win IddCx Driver Run MonitorSwapChain.

(** X10. A request with any control code but the create code leaves the
    driver state as it was.  A destroy request completes with
    STATUS_NOT_IMPLEMENTED and no bytes; an adapter-info request with an
    output buffer completes with 8 bytes, the monitor count as [UINT] and 4
    as the maximum, and without one with the buffer error; any other code
    completes with STATUS_INVALID_DEVICE_REQUEST. *)
Theorem other_requests_change_nothing (req : WDFREQUEST) (code : Z)
    (w : World) :
  code <> IOCTL_EXPANDSCREEN_CREATE_MONITOR ->
  let r := ExpandScreenEvtIoDeviceControl req code w in
  r.2 = w /\
  (code = IOCTL_EXPANDSCREEN_DESTROY_MONITOR ->
   r.1 = {| CompletionStatus := STATUS_NOT_IMPLEMENTED; bytesReturned := 0;
            pOutput := NothingWritten |}) /\
  (code = IOCTL_EXPANDSCREEN_GET_ADAPTER_INFO ->
   r.1 = if NT_SUCCESS (RetrieveOutputBuffer req)
         then {| CompletionStatus := STATUS_SUCCESS; bytesReturned := 8;
                 pOutput := AdapterInfoOutput
                   {| info_MonitorCount := to_UINT (MonitorCount w);
                      info_MaxMonitors := 4 |} |}
         else {| CompletionStatus := RetrieveOutputBuffer req;
                 bytesReturned := 0; pOutput := NothingWritten |}) /\
  (code <> IOCTL_EXPANDSCREEN_DESTROY_MONITOR ->
   code <> IOCTL_EXPANDSCREEN_GET_ADAPTER_INFO ->
   r.1 = {| CompletionStatus := STATUS_INVALID_DEVICE_REQUEST;
            bytesReturned := 0; pOutput := NothingWritten |}).
Proof.
  intros Hc r. subst r. unfold ExpandScreenEvtIoDeviceControl.
  destruct (code =? IOCTL_EXPANDSCREEN_CREATE_MONITOR) eqn:H1;
    [apply Z.eqb_eq in H1; contradiction|].
  destruct (code =? IOCTL_EXPANDSCREEN_DESTROY_MONITOR) eqn:H2.
  { apply Z.eqb_eq in H2. subst code. simpl. split_and!; done. }
  destruct (code =? IOCTL_EXPANDSCREEN_GET_ADAPTER_INFO) eqn:H3.
  { apply Z.eqb_eq in H3. subst code.
    destruct (NT_SUCCESS (RetrieveOutputBuffer req)); simpl;
      split_and!; done. }
  apply Z.eqb_neq in H2, H3. simpl. split_and!; done.
Qed.

Lemma other_requests_change_nothing_witness :
  (ExpandScreenEvtIoDeviceControl request_ok
     IOCTL_EXPANDSCREEN_DESTROY_MONITOR initial).2 = initial.
Proof.
  apply (other_requests_change_nothing request_ok
           IOCTL_EXPANDSCREEN_DESTROY_MONITOR initial).
  vm_compute. discriminate.
Defined.

(** X11. A create request without its input or output buffer completes
    with the buffer error, no bytes, and no change of state.  With both
    buffers it always completes with STATUS_SUCCESS: when the creation went
    through, 8 bytes are returned, two ids are drawn and the monitor count
    moves by one; when the host refused, the failure is in the output record
    only (id 0 and the failing status), no byte is reported as returned, one
    id is drawn and the count stays. *)
Theorem create_request_completion (req : WDFREQUEST) (w : World) :
  let r := ExpandScreenEvtIoDeviceControl req
             IOCTL_EXPANDSCREEN_CREATE_MONITOR w in
  let host := MonitorHostReplies req in
  (NT_SUCCESS (RetrieveInputBuffer req) = false ->
   r = ({| CompletionStatus := RetrieveInputBuffer req; bytesReturned := 0;
           pOutput := NothingWritten |}, w)) /\
  (NT_SUCCESS (RetrieveInputBuffer req) = true ->
   NT_SUCCESS (RetrieveOutputBuffer req) = false ->
   r = ({| CompletionStatus := RetrieveOutputBuffer req; bytesReturned := 0;
           pOutput := NothingWritten |}, w)) /\
  (NT_SUCCESS (RetrieveInputBuffer req) = true ->
   NT_SUCCESS (RetrieveOutputBuffer req) = true ->
   CompletionStatus r.1 = STATUS_SUCCESS /\
   if NT_SUCCESS (first_failure host) then
     bytesReturned r.1 = 8 /\
     Increments r.2 = Increments w + 2 /\
     MonitorCount r.2 = InterlockedIncrement (MonitorCount w)
   else
     bytesReturned r.1 = 0 /\
     pOutput r.1 = CreateMonitorOutput
                     {| out_MonitorId := 0;
                        out_Status := first_failure host |} /\
     Increments r.2 = Increments w + 1 /\
     MonitorCount r.2 = MonitorCount w).
Proof.
  intros r host. subst r host. split_and!.
  - intros Hin. unfold ExpandScreenEvtIoDeviceControl.
    by rewrite Z.eqb_refl, Hin.
  - intros Hin Hout. unfold ExpandScreenEvtIoDeviceControl.
    by rewrite Z.eqb_refl, Hin, Hout.
  - intros Hin Hout.
    destruct (ExpandScreenEvtIoDeviceControl req
                IOCTL_EXPANDSCREEN_CREATE_MONITOR w) as [c w'] eqn:HI.
    destruct (create_request_spec _ _ _ _ HI Hin Hout)
      as (status & w1 & HC & Hres).
    destruct (CreateMonitor_effects (MonitorHostReplies req) w)
      as (edid0 & _ & HC').
    rewrite HC in HC'. injection HC' as -> ->.
    destruct (NT_SUCCESS (first_failure (MonitorHostReplies req)));
      destruct Hres as [-> ->]; simpl; split_and!; try done; lia.
Qed.

Lemma create_request_completion_witness :
  let r := ExpandScreenEvtIoDeviceControl request_ok
             IOCTL_EXPANDSCREEN_CREATE_MONITOR initial in
  CompletionStatus r.1 = STATUS_SUCCESS /\ bytesReturned r.1 = 8.
Proof.
  destruct (create_request_completion request_ok initial) as (_ & _ & H).
  destruct (H eq_refl eq_refl) as (Hs & Hb & _). split; [exact Hs|exact Hb].
Defined.

(** X12. After a run from the initial state with fewer than 2^31 successful
    creations, an adapter-info request reports exactly the number of
    successful creations of the run, and 4 as the maximum. *)
Theorem adapter_info_reports_creations (es : list Event) (os : list Outcome)
    (w' : World) (req : WDFREQUEST) :
  run es initial = (os, w') ->
  count created es os < 2 ^ 31 ->
  NT_SUCCESS (RetrieveOutputBuffer req) = true ->
  ExpandScreenEvtIoDeviceControl req IOCTL_EXPANDSCREEN_GET_ADAPTER_INFO w'
  = ({| CompletionStatus := STATUS_SUCCESS; bytesReturned := 8;
        pOutput := AdapterInfoOutput
          {| info_MonitorCount := count created es os;
             info_MaxMonitors := 4 |} |}, w').
Proof.
  intros Hrun Hk Hout.
  destruct (run_summary _ _ _ _ Hrun) as (_ & _ & _ & _ & Hmc & _).
  assert (Hpos : 0 <= count created es os) by (unfold count; lia).
  unfold ExpandScreenEvtIoDeviceControl.
  change (IOCTL_EXPANDSCREEN_GET_ADAPTER_INFO
          =? IOCTL_EXPANDSCREEN_CREATE_MONITOR) with false.
  change (IOCTL_EXPANDSCREEN_GET_ADAPTER_INFO
          =? IOCTL_EXPANDSCREEN_DESTROY_MONITOR) with false.
  rewrite Z.eqb_refl, Hout. simpl.
  rewrite (Hmc 0 eq_refl), Z.add_0_l, to_LONG_small, to_UINT_small by lia.
  reflexivity.
Qed.

Lemma adapter_info_reports_creations_witness :
  pOutput
    (ExpandScreenEvtIoDeviceControl request_ok
       IOCTL_EXPANDSCREEN_GET_ADAPTER_INFO
       (run [boot; create_ok; create_ok] initial).2).1
  = AdapterInfoOutput {| info_MonitorCount := 3; info_MaxMonitors := 4 |}.
Proof.
  rewrite (adapter_info_reports_creations [boot; create_ok; create_ok] _ _
             request_ok (surjective_pairing _)).
  - vm_compute. reflexivity.
  - vm_compute. reflexivity.
  - reflexivity.
Defined.

End RequestProofs.

Section CapProofs.
Import Win IddCx Driver Run MonitorSwapChain.

Lemma step_create_ok w :
  coupled w ->
  exists w',
    step create_ok w = (created_with (to_UINT (Increments w + 2)), w') /\
    coupled w' /\
    Increments w' = Increments w + 2 /\
    monitor_ids w' = monitor_ids w ++ [to_UINT (Increments w + 1)] /\
    length (Monitors w') = S (length (Monitors w)).
Proof.
  intros Hw. unfold step, create_ok.
  destruct (ExpandScreenEvtIoDeviceControl request_ok
              IOCTL_EXPANDSCREEN_CREATE_MONITOR w) as [c w'] eqn:HI.
  destruct (create_request_spec _ _ _ _ HI eq_refl eq_refl)
    as (status & w1 & HC & Hres).
  destruct (CreateMonitor_effects (MonitorHostReplies request_ok) w)
    as (edid0 & _ & HC').
  rewrite HC in HC'. injection HC' as -> ->.
  change (NT_SUCCESS (first_failure (MonitorHostReplies request_ok)))
    with true in Hres.
  destruct Hres as [-> ->].
  cbn [g_MonitorIdCounter MonitorCount MonitorCreateCalls Monitors Increments
       fst snd next_id count_monitor].
  assert (H1 : InterlockedIncrement (g_MonitorIdCounter w)
               = to_LONG (Increments w + 1))
    by (by apply InterlockedIncrement_coupled).
  assert (H2 : InterlockedIncrement (InterlockedIncrement (g_MonitorIdCounter w))
               = to_LONG (Increments w + 2)).
  { rewrite (InterlockedIncrement_coupled _ _ H1). f_equal. lia. }
  eexists. split; [|split_and!].
  - f_equal. unfold created_with. rewrite H2, to_UINT_to_LONG. reflexivity.
  - unfold coupled.
    cbn [g_MonitorIdCounter Increments]. rewrite H2. f_equal. lia.
  - cbn [Increments]. lia.
  - unfold monitor_ids. cbn [MonitorCreateCalls].
    rewrite fmap_app. cbn [fmap list_fmap ConnectorIndex].
    by rewrite H1, to_UINT_to_LONG.
  - cbn [Monitors]. change (NT_SUCCESS (IddCxMonitorCreate _)) with true.
    cbn iota. rewrite length_app. simpl length. lia.
Qed.

Lemma run_create_ok (n : nat) : forall w,
  coupled w ->
  exists os w',
    run (repeat create_ok n) w = (os, w') /\
    coupled w' /\
    Increments w' = Increments w + 2 * Z.of_nat n /\
    os = (fun k : nat => created_with (to_UINT (Increments w + 2 * Z.of_nat k)))
         <$> seq 1 n /\
    monitor_ids w'
    = monitor_ids w
      ++ ((fun k : nat => to_UINT (Increments w + 2 * Z.of_nat k - 1))
          <$> seq 1 n) /\
    length (Monitors w') = (length (Monitors w) + n)%nat /\
    count created (repeat create_ok n) os = Z.of_nat n.
Proof.
  induction n as [|n IH]; intros w Hw.
  - exists [], w. simpl. rewrite !app_nil_r, Z.add_0_r, Nat.add_0_r.
    by split_and!.
  - destruct (step_create_ok w Hw) as (w1 & Hstep & Hw1 & Hi1 & Hids1 & Hm1).
    destruct (IH w1 Hw1)
      as (os & w' & Hrun & Hw' & Hi & Hos & Hids & Hm & Hcnt).
    eexists _, w'. split.
    { change (repeat create_ok (S n)) with (create_ok :: repeat create_ok n).
      apply (run_cons_eq _ _ _ _ _ _ _ Hstep Hrun). }
    split; [exact Hw'|]. split; [lia|].
    assert (Hext : forall (f g : nat -> Z) (h : Z -> Z),
      (forall k, f (S k) = g k) ->
      [h (f 1%nat)] ++ ((fun k => h (g k)) <$> seq 1 n)
      = (fun k => h (f k)) <$> seq 1 (S n)).
    { intros f g h Hfg. simpl seq. rewrite fmap_cons. simpl app. f_equal.
      rewrite <- (fmap_S_seq 1 n), <- list_fmap_compose.
      apply list_fmap_ext. intros _ k _. simpl. by rewrite Hfg. }
    split.
    { rewrite Hos. simpl seq. rewrite fmap_cons. f_equal.
      rewrite <- (fmap_S_seq 1 n), <- list_fmap_compose.
      apply list_fmap_ext. intros _ k _. simpl. do 2 f_equal. lia. }
    split.
    { rewrite Hids, Hids1, <- app_assoc. f_equal.
      rewrite <- (Hext (fun k => Increments w + 2 * Z.of_nat k - 1)
                       (fun k => Increments w1 + 2 * Z.of_nat k - 1)
                       to_UINT) by (intros k; lia).
      do 3 f_equal. lia. }
    split; [lia|].
    change (repeat create_ok (S n)) with (create_ok :: repeat create_ok n).
    rewrite count_cons, Hcnt.
    change (created create_ok (created_with _)) with true. lia.
Qed.

(** X13. Nothing enforces the maximum of 4 monitors: n create requests in
    a row to a willing host (n below 2^31) all succeed; request k returns the
    id 2k, monitor k has the id 2k - 1, and the run ends with n monitors and
    a monitor count of n. *)
Theorem creation_is_not_capped (n : nat) :
  Z.of_nat n < 2 ^ 31 ->
  exists os w',
    run (repeat create_ok n) initial = (os, w') /\
    os = (fun k : nat => created_with (2 * Z.of_nat k)) <$> seq 1 n /\
    monitor_ids w' = (fun k : nat => 2 * Z.of_nat k - 1) <$> seq 1 n /\
    MonitorCount w' = Z.of_nat n /\
    length (Monitors w') = n.
Proof.
  intros Hn.
  destruct (run_create_ok n initial coupled_initial)
    as (os & w' & Hrun & _ & _ & Hos & Hids & Hm & Hcnt).
  destruct (run_summary _ _ _ _ Hrun) as (_ & _ & _ & _ & Hmc & _).
  exists os, w'. split; [exact Hrun|].
  assert (Hk : forall i k, seq 1 n !! i = Some k -> (1 <= k <= n)%nat).
  { intros i k Hik. apply lookup_seq in Hik. lia. }
  split_and!.
  - rewrite Hos. apply list_fmap_ext. intros i k Hik.
    specialize (Hk _ _ Hik). f_equal.
    change (Increments initial) with 0. apply to_UINT_small. lia.
  - rewrite Hids. change (monitor_ids initial) with (@nil Z).
    rewrite app_nil_l. apply list_fmap_ext. intros i k Hik.
    specialize (Hk _ _ Hik).
    change (Increments initial) with 0. apply to_UINT_small. lia.
  - rewrite (Hmc 0 eq_refl), Hcnt, Z.add_0_l. apply to_LONG_small. lia.
  - rewrite Hm. reflexivity.
Qed.

Lemma creation_is_not_capped_witness :
  exists os w',
    run (repeat create_ok 6) initial = (os, w') /\
    monitor_ids w' = [1; 3; 5; 7; 9; 11] /\
    MonitorCount w' = 6.
Proof.
  destruct (creation_is_not_capped 6) as (os & w' & Hrun & _ & Hids & Hmc & _).
  - reflexivity.
  - exists os, w'. split; [exact Hrun|]. split; [exact Hids|exact Hmc].
Defined.

End CapProofs.

Section FrameProofs.
Import Win SwapChain.

(** X20. One frame step calls the host once when the acquire fails and
    twice otherwise: an acquire with no surface and an output structure,
    then a release of the surface the acquire returned, with no output
    structure, whether or not the frame has dirty rectangles.  The status
    returned is that of the acquire when it failed and that of the release
    otherwise.  Every failed acquire is traced as an error (the test for
    STATUS_PENDING never holds there), a failed release too. *)
Theorem frame_step_calls (ctx : SWAPCHAIN_CONTEXT) (host : BufferHost) :
  let r := ProcessSwapChainFrame ctx host in
  let acquire := {| call_SwapChain := hSwapChain ctx; call_pSurface := 0;
                    call_wantsOutput := true |} in
  let release := {| call_SwapChain := hSwapChain ctx;
                    call_pSurface := pSurface host;
                    call_wantsOutput := false |} in
  r.1 = (if NT_SUCCESS (acquire_status host) then release_status host
         else acquire_status host) /\
  host_calls r.2 = (if NT_SUCCESS (acquire_status host)
                    then [acquire; release] else [acquire]) /\
  (forall st, TraceAcquireFailed st ∈ r.2
              <-> st = acquire_status host
                  /\ NT_SUCCESS (acquire_status host) = false) /\
  (forall st, TraceReleaseFailed st ∈ r.2
              <-> st = release_status host
                  /\ NT_SUCCESS (acquire_status host) = true
                  /\ NT_SUCCESS (release_status host) = false).
Proof.
  intros r acquire release. subst r. unfold ProcessSwapChainFrame.
  destruct (NT_SUCCESS (acquire_status host)) eqn:Ha; simpl.
  - split; [done|].
    destruct (DirtyRectCount host =? 0),
             (NT_SUCCESS (release_status host)) eqn:Hr; simpl;
      (split; [done|]); split; intros st; split;
      try (intros Hin; apply list_elem_of_In in Hin; simpl in Hin;
           intuition (try discriminate; try congruence));
      try (intros (-> & ? & ?));
      try (intros (-> & ?)); try discriminate;
      repeat first [ apply list_elem_of_here | apply list_elem_of_further ].
  - split; [done|].
    assert (Hp : (acquire_status host =? STATUS_PENDING) = false).
    { apply Z.eqb_neq. intros Heq. rewrite Heq in Ha. discriminate. }
    rewrite Hp. simpl. split; [done|]. split; intros st; split.
    + intros Hin. apply list_elem_of_In in Hin. simpl in Hin.
      intuition (try discriminate; try congruence).
    + intros (-> & _).
      repeat first [ apply list_elem_of_here | apply list_elem_of_further ].
    + intros Hin. apply list_elem_of_In in Hin. simpl in Hin.
      intuition (try discriminate; try congruence).
    + intros (_ & ? & _). discriminate.
Qed.

End FrameProofs.

Section SwapChainCallbacks.
Import Win Driver MonitorSwapChain.

(** X14. After any sequence of assign and unassign callbacks on a monitor,
    its id is unchanged and its state is that of the last callback: active
    with the handle assigned, or inactive with no swap chain; with no
    callback the context is unchanged. *)
Theorem last_swap_chain_event_wins (es : list SwapChainEvent)
    (ctx : MONITOR_CONTEXT) :
  let ctx' := deliver_all es ctx in
  MonitorId ctx' = MonitorId ctx /\
  match last es with
  | None => ctx' = ctx
  | Some (AssignSwapChain h) => IsActive ctx' = true /\ SwapChain ctx' = h
  | Some UnassignSwapChain => IsActive ctx' = false /\ SwapChain ctx' = None
  end.
Proof.
  induction es as [|e es IH] using rev_ind.
  - by split.
  - unfold deliver_all in *. rewrite foldl_app, last_snoc. simpl.
    destruct IH as [Hid _]. destruct e; simpl; by rewrite Hid.
Qed.

(** X15. On a monitor context as [CreateMonitor] initialises it, after any
    sequence of assign and unassign callbacks none of which assigns a null
    handle, the monitor is active exactly when it holds a swap chain, and
    keeps its id. *)
Theorem swap_chain_state_consistent (es : list SwapChainEvent) (id : Z) :
  Forall (fun e => e <> AssignSwapChain None) es ->
  let ctx' := deliver_all es (fresh_context id) in
  MonitorId ctx' = id /\
  (IsActive ctx' = true <-> SwapChain ctx' <> None).
Proof.
  intros Hnn. induction es as [|e es IH] using rev_ind.
  - simpl. split; [done|]. split; [discriminate|done].
  - apply Forall_app in Hnn as [Hes He]. specialize (IH Hes).
    unfold deliver_all in *. rewrite foldl_app. simpl.
    destruct IH as [Hid _]. rewrite Forall_singleton in He.
    destruct e as [[h|]|]; [|exfalso; by apply He|]; simpl; rewrite Hid;
      (split; [done|]); split; (done || discriminate).
Qed.

Lemma swap_chain_state_consistent_witness :
  let ctx' := deliver_all [AssignSwapChain (Some 7); UnassignSwapChain;
                           AssignSwapChain (Some 9)] (fresh_context 3) in
  MonitorId ctx' = 3 /\ (IsActive ctx' = true <-> SwapChain ctx' <> None).
Proof.
  apply (swap_chain_state_consistent
           [AssignSwapChain (Some 7); UnassignSwapChain;
            AssignSwapChain (Some 9)] 3).
  repeat constructor; discriminate.
Defined.

End SwapChainCallbacks.

Section LifecycleProofs.
Import Win Lifecycle.

(** X16. [InitializeIddCxAdapter] succeeds exactly when both host calls
    do, and returns the status of the first that fails; the callbacks are
    registered only after a successful init call, on the adapter it
    returned.  The adapter is saved in the device context as soon as the
    init call succeeded, also when registering the callbacks fails; the
    other fields are untouched.  The capabilities announce 4 monitors, the
    maximum every adapter-info request reports. *)
Theorem InitializeIddCxAdapter_effects (host : AdapterHost) (device : Z)
    (ctx : DEVICE_CONTEXT) :
  let caps := {| MaxMonitorsSupported := 4;
                 GammaSupport := IDDCX_FEATURE_IMPLEMENTATION_NONE;
                 TransmissionType := IDDCX_TRANSMISSION_TYPE_WIRED_OTHER;
                 StaticDesktopReencodeFrameCount := 0 |} in
  let r := InitializeIddCxAdapter host device ctx in
  NT_SUCCESS r.1.1 = NT_SUCCESS (InitAsync host)
                     && NT_SUCCESS (InitSetCallbacks host) /\
  r.1.1 = (if NT_SUCCESS (InitAsync host) then InitSetCallbacks host
           else InitAsync host) /\
  r.2 = (if NT_SUCCESS (InitAsync host)
         then [IddCxAdapterInitAsync caps;
               IddCxAdapterInitSetCallbacks (AdapterObject host)]
         else [IddCxAdapterInitAsync caps]) /\
  Adapter r.1.2 = (if NT_SUCCESS (InitAsync host) then AdapterObject host
                   else Adapter ctx) /\
  Device r.1.2 = Device ctx /\ PowerState r.1.2 = PowerState ctx /\
  MonitorCount r.1.2 = MonitorCount ctx /\
  (forall req code w o,
     Driver.pOutput (Driver.ExpandScreenEvtIoDeviceControl req code w).1
     = Driver.AdapterInfoOutput o ->
     Driver.info_MaxMonitors o = MaxMonitorsSupported caps).
Proof.
  intros caps r. subst r. unfold InitializeIddCxAdapter.
  destruct (NT_SUCCESS (InitAsync host)) eqn:H1; simpl;
    [destruct (NT_SUCCESS (InitSetCallbacks host)) eqn:H2; simpl|];
    rewrite ?H1, ?H2; repeat (split; [done|]).
  all: intros req code w o; unfold Driver.ExpandScreenEvtIoDeviceControl;
    destruct (code =? Driver.IOCTL_EXPANDSCREEN_CREATE_MONITOR);
    [ destruct (NT_SUCCESS (Driver.RetrieveInputBuffer req)); simpl;
      [ destruct (NT_SUCCESS (Driver.RetrieveOutputBuffer req)); simpl;
        [ destruct (Driver.CreateMonitor _ w) as [st w1];
          destruct (NT_SUCCESS st); simpl; discriminate
        | discriminate ]
      | discriminate ]
    | destruct (code =? Driver.IOCTL_EXPANDSCREEN_DESTROY_MONITOR);
      [ simpl; discriminate
      | destruct (code =? Driver.IOCTL_EXPANDSCREEN_GET_ADAPTER_INFO);
        [ destruct (NT_SUCCESS (Driver.RetrieveOutputBuffer req)); simpl;
          [ intros [= <-]; reflexivity | discriminate ]
        | simpl; discriminate ] ] ].
Qed.

(** X17. [ExpandScreenEvtDeviceAdd] never creates an I/O queue
    ([InitializeIoctlInterface] is not called).  Its framework calls are a
    prefix of: power callbacks, I/O type, device creation, adapter init,
    adapter callbacks, device interface; on success all six are made and
    the context holds the device, the adapter, a zero power state and a
    zero monitor count; a failure status is one of the four answers that
    can fail; and once the device exists its context is zeroed but for the
    device handle, whatever it held. *)
Theorem DeviceAdd_calls (host : DeviceHost) :
  let full :=
    [WdfDeviceInitSetPnpPowerEventCallbacks; WdfDeviceInitSetIoType;
     WdfDeviceCreate;
     IddCxAdapterInitAsync
       {| MaxMonitorsSupported := 4;
          GammaSupport := IDDCX_FEATURE_IMPLEMENTATION_NONE;
          TransmissionType := IDDCX_TRANSMISSION_TYPE_WIRED_OTHER;
          StaticDesktopReencodeFrameCount := 0 |};
     IddCxAdapterInitSetCallbacks (AdapterObject (adapterHost host));
     WdfDeviceCreateDeviceInterface (DeviceObject host)] in
  let r := ExpandScreenEvtDeviceAdd host in
  (forall device, WdfIoQueueCreate device ∉ r.2) /\
  r.2 `prefix_of` full /\
  (NT_SUCCESS r.1.1 = true ->
   r.2 = full /\
   r.1.2 = Some {| Device := DeviceObject host;
                   Adapter := AdapterObject (adapterHost host);
                   PowerState := WdfPowerDeviceInvalid;
                   MonitorCount := 0 |}) /\
  (NT_SUCCESS r.1.1 = false ->
   r.1.1 ∈ [DeviceCreate host; InitAsync (adapterHost host);
             InitSetCallbacks (adapterHost host);
             CreateDeviceInterface host]) /\
  (NT_SUCCESS (DeviceCreate host) = true ->
   exists ctx, r.1.2 = Some ctx /\ MonitorCount ctx = 0 /\
               Device ctx = DeviceObject host).
Proof.
  intros full r. subst r full.
  unfold ExpandScreenEvtDeviceAdd, InitializeIddCxAdapter.
  destruct (NT_SUCCESS (DeviceCreate host)) eqn:H0; simpl;
    [destruct (NT_SUCCESS (InitAsync (adapterHost host))) eqn:H1; simpl;
     [destruct (NT_SUCCESS (InitSetCallbacks (adapterHost host))) eqn:H2;
      simpl;
      [destruct (NT_SUCCESS (CreateDeviceInterface host)) eqn:H3; simpl|]|]|];
    rewrite ?H0, ?H1, ?H2, ?H3; simpl; rewrite ?H0, ?H1, ?H2, ?H3; simpl.
  all: split;
    [ intros device Hin; apply list_elem_of_In in Hin; simpl in Hin;
      intuition discriminate | ].
  all: split; [ eexists; simpl; reflexivity | ].
  all: split; [ intros Hs; try discriminate Hs; by split | ].
  all: split;
    [ intros Hs; try discriminate Hs;
      repeat first [ apply list_elem_of_here | apply list_elem_of_further ]
    | ].
  all: intros Hs; try discriminate Hs; eexists; by repeat split.
Qed.

(** X18. Over the life of the driver object, tracing is initialised
    first and cleaned up last, exactly once, whether [WdfDriverCreate]
    succeeds (by the cleanup callback) or fails (by [DriverEntry], which
    then returns the failing status); [DriverEntry] itself cleans up only on
    failure. *)
Theorem tracing_cleaned_up_once (driverCreate : NTSTATUS) :
  driver_life driverCreate = [WPP_INIT_TRACING; WdfDriverCreate; WPP_CLEANUP]
  /\ (DriverEntry driverCreate).1 = driverCreate
  /\ (WPP_CLEANUP ∈ (DriverEntry driverCreate).2
      <-> NT_SUCCESS driverCreate = false).
Proof.
  unfold driver_life, DriverEntry.
  destruct (NT_SUCCESS driverCreate) eqn:Hs; simpl; rewrite ?Hs.
  - split; [done|]. split; [done|]. split; [|done].
    intros Hin. apply list_elem_of_In in Hin. simpl in Hin.
    intuition discriminate.
  - split; [done|]. split; [done|]. split; [done|].
    intros _. repeat first [apply list_elem_of_here|apply list_elem_of_further].
Qed.

(** X19. Any sequence of power-up, power-down and cleanup callbacks leaves
    the monitor count and the device handle of the context alone; the
    adapter handle is kept or null, and null once a cleanup ran; after a
    power-up the recorded state is D0, after a power-down the target
    state. *)
Theorem power_events_keep_the_count (es : list DeviceEvent)
    (ctx : DEVICE_CONTEXT) :
  let ctx' := foldl (fun c e => device_step e c) ctx es in
  MonitorCount ctx' = MonitorCount ctx /\
  Device ctx' = Device ctx /\
  (Adapter ctx' = Adapter ctx \/ Adapter ctx' = 0) /\
  (DeviceCleanup ∈ es -> Adapter ctx' = 0) /\
  match last es with
  | Some (D0Entry _) => PowerState ctx' = WdfPowerDeviceD0
  | Some (D0Exit s) => PowerState ctx' = s
  | _ => True
  end.
Proof.
  induction es as [|e es IH] using rev_ind.
  - simpl. repeat split; auto. intros Hin. by apply elem_of_nil in Hin.
  - rewrite foldl_app, last_snoc. simpl.
    destruct IH as (Hm & Hd & Ha & Hc & _).
    set (c := foldl (fun c e => device_step e c) ctx es) in *.
    assert (Hcl : Adapter (ExpandScreenEvtDeviceCleanup c) = 0
                  /\ MonitorCount (ExpandScreenEvtDeviceCleanup c)
                     = MonitorCount c
                  /\ Device (ExpandScreenEvtDeviceCleanup c) = Device c).
    { unfold ExpandScreenEvtDeviceCleanup.
      destruct (Adapter c =? 0) eqn:Hz; simpl; [|done].
      apply Z.eqb_eq in Hz. done. }
    destruct Hcl as (Hc0 & Hcm & Hcd).
    destruct e as [s|s|]; simpl; rewrite ?Hcm, ?Hcd, ?Hm, ?Hd;
      (split; [done|]); (split; [done|]).
    + split; [exact Ha|]. split; [|done].
      intros Hin. apply elem_of_app in Hin as [Hin|Hin]; [by apply Hc|].
      apply list_elem_of_In in Hin. simpl in Hin. intuition discriminate.
    + split; [exact Ha|]. split; [|done].
      intros Hin. apply elem_of_app in Hin as [Hin|Hin]; [by apply Hc|].
      apply list_elem_of_In in Hin. simpl in Hin. intuition discriminate.
    + split; [by right|]. split; [done|]. done.
Qed.

End LifecycleProofs.

Section DescriptorAndModes.
Import Win Edid Modes IddCx MonitorModes Driver Run.

(** X21. The descriptor of every monitor submitted during a run agrees with
    the preferred mode the default-modes callback reports for a buffer of at
    least one entry: the active size of the preferred timing is the active
    size of that mode, and the pixel clock field is its pixel rate in units
    of 10 kHz. *)
Theorem preferred_mode_matches_descriptor (es : list Event)
    (os : list Outcome) (w' : World) (n : Z)
    (bufM : list IDDCX_MONITOR_MODE) :
  run es initial = (os, w') ->
  0 < n -> Z.of_nat (length bufM) = n ->
  exists out modes mm,
    ExpandScreenEvtMonitorGetDefaultModes
      {| DefaultMonitorModeBufferInputCount := n;
         pDefaultMonitorModes := bufM |}
    = (STATUS_SUCCESS, out, modes) /\
    modes !! Z.to_nat (PreferredMonitorModeIdx out) = Some mm /\
    Forall (fun info =>
              let edid := pData (MonitorDescription info) in
              ActiveSize (MonitorVideoSignalInfo mm)
              = {| cx := active12 edid 56 58; cy := active12 edid 59 61 |} /\
              le16 edid 54 = PixelRate (MonitorVideoSignalInfo mm) / 10000)
           (MonitorCreateCalls w').
Proof.
  intros Hrun Hn Hlen.
  destruct default_edid as (edid0 & Hgen & _).
  destruct (run_adds edid0 _ _ _ _ Hgen Hrun)
    as (newc & newm & Hc & _ & _ & _ & _ & Hd & _).
  change (MonitorCreateCalls initial) with (@nil IDDCX_MONITOR_INFO) in Hc.
  rewrite app_nil_l in Hc. subst newc.
  destruct (lookup_lt_is_Some_2 bufM 0) as [mm0 Hmm0]; [lia|].
  unfold ExpandScreenEvtMonitorGetDefaultModes. cbv zeta.
  cbn [DefaultMonitorModeBufferInputCount pDefaultMonitorModes].
  eexists _, _, (fill_monitor_mode 0 mm0).
  split; [reflexivity|]. split.
  - cbn [PreferredMonitorModeIdx]. change (Z.to_nat 0) with 0%nat.
    rewrite lookup_fill_loop, Hmm0.
    change SUPPORTED_MODE_COUNT with 5.
    destruct (decide (0 < Z.to_nat (Z.min n 5))%nat); [done|lia].
  - eapply Forall_impl; [exact Hd|]. intros info ->. simpl.
    destruct (GenerateEdid_timing_bytes _ _ _ _ (length_replicate _ _) Hgen)
      as (H56 & H58 & H59 & H61).
    destruct (GenerateEdid_computed_bytes _ _ _ _ (length_replicate _ _) Hgen)
      as (_ & _ & H54 & H55).
    destruct (active12_value _ _ _ _ H56 H58) as [-> _].
    destruct (active12_value _ _ _ _ H59 H61) as [-> _].
    rewrite (le16_value _ _ _ H54 H55). split; reflexivity.
Qed.

Lemma preferred_mode_matches_descriptor_witness :
  exists out modes mm,
    ExpandScreenEvtMonitorGetDefaultModes
      {| DefaultMonitorModeBufferInputCount := 2;
         pDefaultMonitorModes := replicate 2 blank_monitor_mode |}
    = (STATUS_SUCCESS, out, modes) /\
    modes !! Z.to_nat (PreferredMonitorModeIdx out) = Some mm /\
    Forall (fun info =>
              let edid := pData (MonitorDescription info) in
              ActiveSize (MonitorVideoSignalInfo mm)
              = {| cx := active12 edid 56 58; cy := active12 edid 59 61 |} /\
              le16 edid 54 = PixelRate (MonitorVideoSignalInfo mm) / 10000)
           (MonitorCreateCalls (run [boot; create_ok] initial).2).
Proof.
  apply (preferred_mode_matches_descriptor [boot; create_ok] _ _ 2
           (replicate 2 blank_monitor_mode) (surjective_pairing _));
    reflexivity.
Defined.

End DescriptorAndModes.

Section InitFinishedProofs.
Import Win IddCx Driver Run.

(** X22. The init-finished callback returns a failed init status as it is
    and then touches nothing.  Otherwise it draws one id, submits one
    monitor, and returns the first failing answer of the host, or
    STATUS_SUCCESS; the monitor count moves by one exactly when it returns
    success.  Its result is always STATUS_SUCCESS or a failure: a success
    code other than zero from the host is not passed on. *)
Theorem init_finished_completion (st : NTSTATUS) (host : MonitorHost)
    (w : World) :
  let r := ExpandScreenEvtAdapterInitFinished st host w in
  (r.1 = STATUS_SUCCESS \/ NT_SUCCESS r.1 = false) /\
  (NT_SUCCESS st = false -> r = (st, w)) /\
  (NT_SUCCESS st = true ->
   r.1 = first_failure host /\
   Increments r.2 = Increments w + 1 /\
   monitor_ids r.2
   = monitor_ids w ++ [to_UINT (InterlockedIncrement (g_MonitorIdCounter w))] /\
   MonitorCount r.2
   = (if NT_SUCCESS r.1 then InterlockedIncrement (MonitorCount w)
      else MonitorCount w)).
Proof.
  intros r. subst r. unfold ExpandScreenEvtAdapterInitFinished.
  destruct (NT_SUCCESS st) eqn:Hst; simpl.
  - destruct (CreateMonitor_effects host w) as (edid0 & _ & ->).
    pose proof (first_failure_ok host) as Hok.
    unfold first_failure in *.
    destruct (NT_SUCCESS (IddCxMonitorCreate host)) eqn:H1; simpl in *;
      [destruct (NT_SUCCESS (IddCxMonitorSetCallbacks host)) eqn:H2;
       simpl in *;
       [destruct (NT_SUCCESS (IddCxMonitorArrival host)) eqn:H3;
        simpl in *|]|];
      rewrite ?H1, ?H2, ?H3; simpl; unfold monitor_ids; simpl;
      rewrite ?fmap_app; simpl;
      (split; [auto|]); (split; [discriminate|]); intros _;
      rewrite ?H1, ?H2, ?H3; split_and!; reflexivity.
  - split; [by right|]. split; [done|discriminate].
Qed.

End InitFinishedProofs.
